(** * The data grid's event manager

    A shallow embedding of [js/src/dataGrid/event/EventManager.ts]: the
    dispatcher that receives pointer, wheel and keyboard events from the
    host grid and drives the resize, column-position, selection, focus and
    tooltip controllers.

    JavaScript numbers that carry pixels are binary64 floats ([float]);
    DOM fields that are integers by their IDL type ([button], [buttons],
    [deltaMode], key codes, row and column indices) are [Z]. *)

From Stdlib Require Import ZArith String Bool Floats Lia.
From stdpp Require Import base decidable list strings.

Local Open Scope string_scope.
Local Open Scope Z_scope.

(** ** Cells, columns, rows *)

(** Modelled from the spec: [ICellData] ([../interface/ICell]) is not among
    the sources. A region is "one of body, row-header, column-header,
    corner-header". *)
Inductive Region := body | row_header | column_header | corner_header.

(** Modelled from the spec: [COLUMN_TYPES] ([../column/enums]) is not
    among the sources. The handler only tells "the index column" from the
    others. *)
Module COLUMN_TYPES.
Inductive t := index | body.
End COLUMN_TYPES.

(** Modelled from the spec: [HIGHLIGHTER_TYPE]
    ([../interface/IHighlighterState]) is not among the sources. The key
    handler names its "heatmap" and "unique-entries" members. *)
Module HIGHLIGHTER_TYPE.
Inductive t := heatmap | uniqueEntries.
End HIGHLIGHTER_TYPE.

(** Modelled from the spec: Cell Data "identifies a rendered cell by
    region, row index (view-order), column index, pixel geometry (offset,
    width, height, delta-to-boundary), and value". These are the fields
    the event manager reads, with the column type it compares with
    [COLUMN_TYPES.index]. *)
Record CellData := {
  type : COLUMN_TYPES.t;
  row : Z;
  column : Z;
  region : Region;
  width : float;
  delta : float;
  value : string
}.

(** What [parseInt] returns: an integer, or NaN. *)
Inductive number := NaN | Int (z : Z).

(** A column is referred to by its place in the column manager's list. *)
Definition ColumnRef := nat.

(** Modelled from the spec: [DataGridColumn] is not among the sources. A
    column "carries display properties", of which the precision is the
    one a theorem below reads; sort direction, highlighters and renderer
    are only toggled, and a toggle is recorded as a call. *)
Record DataGridColumn := { precision : number }.

(** An element of [grid.rowManager.rows]: a rendered row knows its logical
    [index]. *)
Record Row := { index : Z }.

(** ** The DOM: nodes, listeners, events *)

Definition Node := Z.

(** The three closures the constructor creates; a listener is removed only
    by the same event type and the same closure. *)
Inductive Handler := handleMouseMove | handleMouseLeave | handleMouseDown.

Definition Listener : Type := string * Handler.

Record Rect := { rect_left : float; rect_top : float }.

Record Element := {
  node_id : Node;
  listeners : list Listener;
  rect : Rect
}.

Record MouseEvent := {
  clientX : float;
  clientY : float;
  button : Z;
  buttons : Z;
  target : Node
}.

Record WheelEvent := {
  deltaX : float;
  deltaY : float;
  deltaMode : Z
}.

Record KeyboardEvent := {
  keyCode : Z;
  shiftKey : bool
}.

#[global] Instance Handler_eq_dec : EqDecision Handler.
Proof. solve_decision. Defined.

Definition same_listener (ty : string) (h : Handler) (l : Listener) : bool :=
  bool_decide (l = (ty, h)).

(** [EventTarget.addEventListener]: a listener already registered for the
    type is not registered twice. *)
Definition addEventListener (ty : string) (h : Handler) (e : Element) : Element :=
  {| node_id := node_id e;
     listeners := if existsb (same_listener ty h) (listeners e)
                  then listeners e
                  else listeners e ++ [(ty, h)];
     rect := rect e |}.

(** [EventTarget.removeEventListener]: removes the listener registered with
    this type and this closure, and nothing else. *)
Definition removeEventListener (ty : string) (h : Handler) (e : Element) : Element :=
  {| node_id := node_id e;
     listeners := filter (fun l => same_listener ty h l = false) (listeners e);
     rect := rect e |}.

(** ** The controllers' state *)

(** Modelled from the spec: the controllers are not among the sources.
    The resize controller "tracks an active resize gesture" and the cursor
    affordance; the column-position controller "tracks drag-in-progress
    state" (the grabbed header cell) beside the [dropCellData] the event
    manager reads; the selection manager "tracks an anchor (start) cell
    and an extended (end) cell"; the focus manager "tracks the single
    focused cell". *)

Record DataGridResize := {
  resizing : bool;
  cursor : string
}.

Record ColumnPosition := {
  grabbedCellData : option CellData;
  dropCellData : option CellData
}.

Record CellSelectionManager := {
  startCellData : option CellData;
  endCellData : option CellData
}.

Record CellFocusManager := {
  focusedCellData : option CellData
}.

Record Sizes := { columnWidth : float; rowHeight : float }.

Record Store := {
  selectHasDoubleClickAction : bool;
  selectDoubleClickTag : bool;
  selectAutoLinkTableLinks : bool
}.

(** [BeakerXDataGrid], as far as the event manager reads and drives it. *)
Record Grid := {
  node : Element;
  tableDisplayView_el : Element;
  viewport_node : Element;
  _canvas : Node;
  bodyWidth : float;
  headerHeight : float;
  rowHeaderSections_length : nat;
  defaultSizes : Sizes;
  pageWidth : float;
  pageHeight : float;
  focused : bool;
  dataGridResize : DataGridResize;
  columnPosition : ColumnPosition;
  cellSelectionManager : CellSelectionManager;
  cellFocusManager : CellFocusManager;
  hoveredCellData : option CellData;
  columns : list DataGridColumn;
  rows : list Row;
  store : Store
}.

(** Field updates. *)

Definition with_node (f : Element -> Element) (g : Grid) : Grid :=
  {| node := f (node g); tableDisplayView_el := tableDisplayView_el g;
     viewport_node := viewport_node g; _canvas := _canvas g;
     bodyWidth := bodyWidth g; headerHeight := headerHeight g;
     rowHeaderSections_length := rowHeaderSections_length g; defaultSizes := defaultSizes g;
     pageWidth := pageWidth g; pageHeight := pageHeight g; focused := focused g;
     dataGridResize := dataGridResize g; columnPosition := columnPosition g;
     cellSelectionManager := cellSelectionManager g;
     cellFocusManager := cellFocusManager g; hoveredCellData := hoveredCellData g;
     columns := columns g; rows := rows g; store := store g |}.

Definition with_el (f : Element -> Element) (g : Grid) : Grid :=
  {| node := node g; tableDisplayView_el := f (tableDisplayView_el g);
     viewport_node := viewport_node g; _canvas := _canvas g;
     bodyWidth := bodyWidth g; headerHeight := headerHeight g;
     rowHeaderSections_length := rowHeaderSections_length g; defaultSizes := defaultSizes g;
     pageWidth := pageWidth g; pageHeight := pageHeight g; focused := focused g;
     dataGridResize := dataGridResize g; columnPosition := columnPosition g;
     cellSelectionManager := cellSelectionManager g;
     cellFocusManager := cellFocusManager g; hoveredCellData := hoveredCellData g;
     columns := columns g; rows := rows g; store := store g |}.

Definition with_focused (b : bool) (g : Grid) : Grid :=
  {| node := node g; tableDisplayView_el := tableDisplayView_el g;
     viewport_node := viewport_node g; _canvas := _canvas g;
     bodyWidth := bodyWidth g; headerHeight := headerHeight g;
     rowHeaderSections_length := rowHeaderSections_length g; defaultSizes := defaultSizes g;
     pageWidth := pageWidth g; pageHeight := pageHeight g; focused := b;
     dataGridResize := dataGridResize g; columnPosition := columnPosition g;
     cellSelectionManager := cellSelectionManager g;
     cellFocusManager := cellFocusManager g; hoveredCellData := hoveredCellData g;
     columns := columns g; rows := rows g; store := store g |}.

Definition with_resize (r : DataGridResize) (g : Grid) : Grid :=
  {| node := node g; tableDisplayView_el := tableDisplayView_el g;
     viewport_node := viewport_node g; _canvas := _canvas g;
     bodyWidth := bodyWidth g; headerHeight := headerHeight g;
     rowHeaderSections_length := rowHeaderSections_length g; defaultSizes := defaultSizes g;
     pageWidth := pageWidth g; pageHeight := pageHeight g; focused := focused g;
     dataGridResize := r; columnPosition := columnPosition g;
     cellSelectionManager := cellSelectionManager g;
     cellFocusManager := cellFocusManager g; hoveredCellData := hoveredCellData g;
     columns := columns g; rows := rows g; store := store g |}.

Definition with_columnPosition (c : ColumnPosition) (g : Grid) : Grid :=
  {| node := node g; tableDisplayView_el := tableDisplayView_el g;
     viewport_node := viewport_node g; _canvas := _canvas g;
     bodyWidth := bodyWidth g; headerHeight := headerHeight g;
     rowHeaderSections_length := rowHeaderSections_length g; defaultSizes := defaultSizes g;
     pageWidth := pageWidth g; pageHeight := pageHeight g; focused := focused g;
     dataGridResize := dataGridResize g; columnPosition := c;
     cellSelectionManager := cellSelectionManager g;
     cellFocusManager := cellFocusManager g; hoveredCellData := hoveredCellData g;
     columns := columns g; rows := rows g; store := store g |}.

Definition with_selection (s : CellSelectionManager) (g : Grid) : Grid :=
  {| node := node g; tableDisplayView_el := tableDisplayView_el g;
     viewport_node := viewport_node g; _canvas := _canvas g;
     bodyWidth := bodyWidth g; headerHeight := headerHeight g;
     rowHeaderSections_length := rowHeaderSections_length g; defaultSizes := defaultSizes g;
     pageWidth := pageWidth g; pageHeight := pageHeight g; focused := focused g;
     dataGridResize := dataGridResize g; columnPosition := columnPosition g;
     cellSelectionManager := s;
     cellFocusManager := cellFocusManager g; hoveredCellData := hoveredCellData g;
     columns := columns g; rows := rows g; store := store g |}.

Definition with_focus (f : CellFocusManager) (g : Grid) : Grid :=
  {| node := node g; tableDisplayView_el := tableDisplayView_el g;
     viewport_node := viewport_node g; _canvas := _canvas g;
     bodyWidth := bodyWidth g; headerHeight := headerHeight g;
     rowHeaderSections_length := rowHeaderSections_length g; defaultSizes := defaultSizes g;
     pageWidth := pageWidth g; pageHeight := pageHeight g; focused := focused g;
     dataGridResize := dataGridResize g; columnPosition := columnPosition g;
     cellSelectionManager := cellSelectionManager g;
     cellFocusManager := f; hoveredCellData := hoveredCellData g;
     columns := columns g; rows := rows g; store := store g |}.

Definition with_columns (cs : list DataGridColumn) (g : Grid) : Grid :=
  {| node := node g; tableDisplayView_el := tableDisplayView_el g;
     viewport_node := viewport_node g; _canvas := _canvas g;
     bodyWidth := bodyWidth g; headerHeight := headerHeight g;
     rowHeaderSections_length := rowHeaderSections_length g; defaultSizes := defaultSizes g;
     pageWidth := pageWidth g; pageHeight := pageHeight g; focused := focused g;
     dataGridResize := dataGridResize g; columnPosition := columnPosition g;
     cellSelectionManager := cellSelectionManager g;
     cellFocusManager := cellFocusManager g; hoveredCellData := hoveredCellData g;
     columns := cs; rows := rows g; store := store g |}.

(** ** What a handler does to the outside *)

(** The two messages the handler constructs: [new DoubleClickMessage(row,
    column)] and [new ActionDetailsMessage(actionType, row, column)]. *)
Inductive Message :=
  | DoubleClickMessage (row : Z) (column : Z)
  | ActionDetailsMessage (actionType : string) (row : Z) (column : Z).

(** Calls that leave the event manager and its controllers: signals, the
    host grid's scrolling, the window, column display toggles, and what is
    done to the DOM event itself. *)
Inductive Effect :=
  | cellHovered_emit (data : option CellData)
  | commSignal_emit (m : Message)
  | window_open (url : string)
  | toggleSort (c : ColumnRef)
  | toggleHighlighter (c : ColumnRef) (h : HIGHLIGHTER_TYPE.t)
  | toggleDataBarsRenderer (c : ColumnRef)
  | scrollBy (dx dy : float)
  | scrollByPage (dir : string)
  | hideTooltips
  | stopPropagation
  | preventDefault
  | hoverCallback.

(** ** Timers of the JavaScript runtime *)

(** What a pending timer runs: the closure of [clearReferences], or a
    hover callback registered under [cellHoverControl.timerId]. *)
Inductive Task := nullCellHoverControl | hoverTask.

Record HoverControl := { timerId : option nat }.

(** An event manager with its grid, the runtime's pending timers and the
    trace of outside calls. [cellHoverControl = None] is JavaScript's
    [null]. *)
Record World := {
  grid : Grid;
  _disposed : bool;
  cellHoverControl : option HoverControl;
  timers : list (nat * Task);
  nextTimer : nat;
  trace : list Effect
}.

Definition with_grid (f : Grid -> Grid) (w : World) : World :=
  {| grid := f (grid w); _disposed := _disposed w;
     cellHoverControl := cellHoverControl w; timers := timers w;
     nextTimer := nextTimer w; trace := trace w |}.

Definition with_disposed (b : bool) (w : World) : World :=
  {| grid := grid w; _disposed := b;
     cellHoverControl := cellHoverControl w; timers := timers w;
     nextTimer := nextTimer w; trace := trace w |}.

Definition with_cellHoverControl (c : option HoverControl) (w : World) : World :=
  {| grid := grid w; _disposed := _disposed w;
     cellHoverControl := c; timers := timers w;
     nextTimer := nextTimer w; trace := trace w |}.

Definition with_timers (ts : list (nat * Task)) (n : nat) (w : World) : World :=
  {| grid := grid w; _disposed := _disposed w;
     cellHoverControl := cellHoverControl w; timers := ts;
     nextTimer := n; trace := trace w |}.

Definition with_trace (t : list Effect) (w : World) : World :=
  {| grid := grid w; _disposed := _disposed w;
     cellHoverControl := cellHoverControl w; timers := timers w;
     nextTimer := nextTimer w; trace := t |}.

(** ** Handlers as state transformers that may throw *)

Inductive Outcome (A : Type) :=
  | Normal (a : A) (w : World)
  | Throw (e : string) (w : World).
Arguments Normal {A} a w.
Arguments Throw {A} e w.

Definition M (A : Type) : Type := World -> Outcome A.

Definition ret {A} (a : A) : M A := fun w => Normal a w.

Definition bind {A B} (m : M A) (k : A -> M B) : M B :=
  fun w => match m w with
           | Normal a w' => k a w'
           | Throw e w' => Throw e w'
           end.

Definition throw {A} (e : string) : M A := fun w => Throw e w.

Definition gets {A} (f : World -> A) : M A := fun w => Normal (f w) w.

Definition modify (f : World -> World) : M unit := fun w => Normal tt (f w).

Definition when (b : bool) (m : M unit) : M unit := if b then m else ret tt.

Declare Scope js_scope.
Delimit Scope js_scope with js.
Notation "x <- m ;; k" := (bind m (fun x => k))
  (at level 100, m at next level, k at level 200, right associativity) : js_scope.
Notation "m ;; k" := (bind m (fun _ => k))
  (at level 100, k at level 200, right associativity) : js_scope.
Local Open Scope js_scope.

(** The world a handler leaves, however it ends. *)
Definition world_of {A} (o : Outcome A) : World :=
  match o with Normal _ w => w | Throw _ w => w end.

Definition emit (e : Effect) : M unit :=
  modify (fun w => with_trace (trace w ++ [e]) w).

Definition on_grid (f : Grid -> Grid) : M unit := modify (with_grid f).

(** [setTimeout(task)]: the task waits under a fresh id. *)
Definition setTimeout (t : Task) : M nat :=
  fun w => Normal (nextTimer w)
                  (with_timers (timers w ++ [(nextTimer w, t)]) (S (nextTimer w)) w).

(** [clearTimeout(id)]: the timer of that id, if any, is dropped;
    [clearTimeout(undefined)] does nothing. *)
Definition clearTimeout (i : option nat) : M unit :=
  modify (fun w =>
    match i with
    | Some n => with_timers (filter (fun t => t.1 <> n) (timers w)) (nextTimer w) w
    | None => w
    end).

(** The event loop runs one pending timer: its task leaves the table and
    its closure runs. *)
Definition runTask (t : Task) : M unit :=
  match t with
  | nullCellHoverControl => modify (with_cellHoverControl None)
  | hoverTask => emit hoverCallback
  end.

(** The timer of id [n] comes due. *)
Definition fire (n : nat) : M unit :=
  ts <- gets timers ;;
  match list_find (fun t => t.1 = n) ts with
  | Some (_, (_, t)) => clearTimeout (Some n) ;; runTask t
  | None => ret tt
  end.

(** ** Collaborators outside [EventManager.ts] *)

(** [KEYBOARD_KEYS] of [./enums]: the members the key handlers name. The
    table itself is a parameter of the development. *)
Record KEYBOARD_KEYS := {
  Enter : Z;
  PageUp : Z;
  PageDown : Z;
  ArrowLeft : Z;
  ArrowUp : Z;
  ArrowRight : Z;
  ArrowDown : Z;
  Digit0 : Z;
  Digit9 : Z;
  KeyB : Z;
  KeyH : Z;
  KeyU : Z
}.

(** Queries and geometry-dependent decisions of the host grid, the helpers
    and the controllers. Their code is not among the sources, so they are
    parameters: every theorem holds for any choice of them. An operation of
    a controller returns that controller's new state only, as each
    controller is the single writer of its own state. *)
Record Host := {
  keys : KEYBOARD_KEYS;
  (* BeakerXDataGrid.getCellData(clientX, clientY) *)
  getCellData : Grid -> float -> float -> option CellData;
  (* EventHelpers.isOutsideNode(event, node), EventHelpers.isInsideGridNode(event, node) *)
  isOutsideNode : MouseEvent -> Element -> bool;
  isInsideGridNode : MouseEvent -> Element -> bool;
  (* DataGridHelpers.getEventKeyCode(event); 0 stands for any falsy result *)
  getEventKeyCode : KeyboardEvent -> Z;
  (* DataGridHelpers.retrieveUrl(value) *)
  retrieveUrl : string -> option string;
  (* CellManager.cellsEqual(a, b) *)
  cellsEqual : CellData -> CellData -> bool;
  (* ColumnManager.takeColumnByCell(cell) and
     ColumnManager.getColumnByPosition(ColumnManager.createPositionFromCell(cell)) *)
  takeColumnByCell : Grid -> CellData -> option ColumnRef;
  getColumnByPosition : Grid -> CellData -> option ColumnRef;
  (* DataGridResize.shouldResizeDataGrid(event), DataGridResize.setResizeMode(event) *)
  shouldResizeDataGrid : Grid -> MouseEvent -> bool;
  resizeModeFor : Grid -> MouseEvent -> DataGridResize;
  (* ColumnPosition: the drop target under the pointer while a header is dragged *)
  dropTargetFor : Grid -> MouseEvent -> option CellData;
  (* CellSelectionManager.handleMouseDown / handleMouseUp / handleBodyCellHover /
     handleCellInteraction *)
  selectionOnMouseDown : Grid -> MouseEvent -> CellSelectionManager;
  selectionOnMouseUp : Grid -> MouseEvent -> CellSelectionManager;
  selectionOnBodyCellHover : Grid -> MouseEvent -> CellSelectionManager;
  selectionOnCellInteraction : Grid -> CellData -> CellSelectionManager;
  (* CellFocusManager: the cell a navigation key moves the focus to *)
  navigate : Grid -> Z -> option CellData
}.

Definition query {A} (f : Grid -> A) : M A := gets (fun w => f (grid w)).

(** *** Resize controller *)

(** Modelled from the spec: [DataGridResize] is not among the sources. It
    "tracks an active resize gesture": [startResizing] enters it,
    [stopResizing] finalizes it, [isResizing] reads it; [setCursorStyle]
    sets the cursor affordance. *)
Definition isResizing : M bool := query (fun g => resizing (dataGridResize g)).

Definition startResizing (ev : MouseEvent) : M unit :=
  on_grid (fun g => with_resize {| resizing := true; cursor := cursor (dataGridResize g) |} g).

Definition stopResizing : M unit :=
  on_grid (fun g => with_resize {| resizing := false; cursor := cursor (dataGridResize g) |} g).

Definition setCursorStyle (c : string) : M unit :=
  on_grid (fun g => with_resize {| resizing := resizing (dataGridResize g); cursor := c |} g).

(** *** Column-position controller *)

(** Modelled from the spec: [ColumnPosition] is not among the sources. It
    "tracks drag-in-progress state for column reordering; exposes
    start/move/stop/drop operations". A drag is in progress while a header
    cell is grabbed; stop and drop both end it; move only updates a drag
    that is in progress. *)
Definition isDragging (g : Grid) : bool :=
  bool_decide (is_Some (grabbedCellData (columnPosition g))).

Definition startDragging (data : CellData) : M unit :=
  on_grid (fun g => with_columnPosition
    {| grabbedCellData := Some data; dropCellData := dropCellData (columnPosition g) |} g).

Definition stopDragging : M unit :=
  on_grid (with_columnPosition {| grabbedCellData := None; dropCellData := None |}).

Definition dropColumn : M unit :=
  on_grid (with_columnPosition {| grabbedCellData := None; dropCellData := None |}).

(** *** Selection manager *)

(** Modelled from the spec: [CellSelectionManager] is not among the
    sources. It "tracks an anchor (start) cell and an extended (end)
    cell": [setStartCell] sets the anchor, [setEndCell] the end. *)
Definition setStartCell (c : CellData) : M unit :=
  on_grid (fun g => with_selection
    {| startCellData := Some c; endCellData := endCellData (cellSelectionManager g) |} g).

Definition setEndCell (c : option CellData) : M unit :=
  on_grid (fun g => with_selection
    {| startCellData := startCellData (cellSelectionManager g); endCellData := c |} g).

(** *** Grid focus and columns *)

(** Modelled from the spec: [BeakerXDataGrid.setFocus] is not among the
    sources; it gives the grid focus or removes it. *)
Definition setFocus (b : bool) : M unit := on_grid (with_focused b).

(** Modelled from the spec: [DataGridColumn.setDataTypePrecision] and
    [ColumnManager.setColumnsDataTypePrecission] are not among the sources.
    The first sets the display precision of its column, the second that of
    every column. *)
Definition setDataTypePrecision (c : ColumnRef) (n : number) : M unit :=
  on_grid (fun g => with_columns (<[c := {| precision := n |}]> (columns g)) g).

Definition setColumnsDataTypePrecission (n : number) : M unit :=
  on_grid (fun g => with_columns ((fun _ => {| precision := n |}) <$> columns g) g).

(** ** The event manager *)

Definition COLUMN_RESIZE_AREA_WIDTH : float := 4%float.

Definition is_index (t : COLUMN_TYPES.t) : bool :=
  match t with COLUMN_TYPES.index => true | COLUMN_TYPES.body => false end.

Definition is_corner_header (r : Region) : bool :=
  match r with corner_header => true | _ => false end.

(** [Array.prototype.indexOf] on key codes: the first position, or [-1]. *)
Fixpoint indexOf (l : list Z) (x : Z) : Z :=
  match l with
  | [] => -1
  | y :: l' => if y =? x then 0
               else let i := indexOf l' x in if i =? -1 then -1 else i + 1
  end.

(** [parseInt(String.fromCharCode(code))]: the string is the single UTF-16
    unit [code mod 2^16]; [parseInt] reads a decimal digit as its value
    and anything else (a letter, a sign, white space) as NaN. *)
Definition fromCharCode (code : Z) : Z := code mod 65536.

Definition parseInt (unit : Z) : number :=
  if (48 <=? unit) && (unit <=? 57) then Int (unit - 48) else NaN.

Definition length_number (n : nat) : float :=
  PrimFloat.of_uint63 (Uint63.of_Z (Z.of_nat n)).

(** [new EventManager(grid)]: the fields' initial values, then the three
    listeners. *)
Definition constructor (g : Grid) : World :=
  let g := with_node (addEventListener "mousemove" handleMouseMove) g in
  let g := with_node (addEventListener "mouseout" handleMouseLeave) g in
  let g := with_el (addEventListener "mousedown" handleMouseDown) g in
  {| grid := g; _disposed := false;
     cellHoverControl := Some {| timerId := None |};
     timers := []; nextTimer := 0; trace := [] |}.

Definition isDisposed : M bool := gets _disposed.

Definition clearReferences : M unit :=
  _ <- setTimeout nullCellHoverControl ;; ret tt.

Definition dispose : M unit :=
  d <- gets _disposed ;;
  if d then ret tt else
  clearReferences ;;
  on_grid (with_node (removeEventListener "mousemove" handleMouseMove)) ;;
  on_grid (with_node (removeEventListener "mousemove" handleMouseLeave)) ;;
  on_grid (with_el (removeEventListener "mousedown" handleMouseDown)) ;;
  modify (with_disposed true).

Definition release : M unit := ret tt.

Definition isOverHeader (g : Grid) (ev : MouseEvent) : bool :=
  let r := rect (viewport_node g) in
  let x := (clientX ev - rect_left r)%float in
  let y := (clientY ev - rect_top r)%float in
  (x <? bodyWidth g + length_number (rowHeaderSections_length g))%float
  && (y <? headerHeight g)%float.

Definition isHeaderClicked (g : Grid) (ev : MouseEvent) : bool :=
  isOverHeader g ev && (button ev =? 0) && bool_decide (target ev = _canvas g).

(** [rows[i]]: the element at an index within the array, [undefined]
    (here [None]) at any other. *)
Definition lookupRow (g : Grid) (renderedRowIndex : Z) : option Row :=
  if 0 <=? renderedRowIndex then rows g !! Z.to_nat renderedRowIndex else None.

Section EventManager.

Variable host : Host.

Definition isOutsideViewport (g : Grid) (ev : MouseEvent) : bool :=
  isOutsideNode host ev (viewport_node g).

Definition isNodeInsideGrid (g : Grid) (ev : MouseEvent) : bool :=
  isInsideGridNode host ev (node g).

(** [DataGridResize.setResizeMode(event)]: the controller's new state is
    the host's decision for the pointer position. *)
Definition setResizeMode (ev : MouseEvent) : M unit :=
  on_grid (fun g => with_resize (resizeModeFor host g ev) g).

(** Modelled from the spec: [ColumnPosition.moveDraggedHeader] "updates
    the position of an in-progress column drag", and does nothing when no
    drag is in progress. *)
Definition moveDraggedHeader (ev : MouseEvent) : M unit :=
  on_grid (fun g =>
    if isDragging g
    then with_columnPosition
           {| grabbedCellData := grabbedCellData (columnPosition g);
              dropCellData := dropTargetFor host g ev |} g
    else g).

Definition selection_handleMouseDown (ev : MouseEvent) : M unit :=
  on_grid (fun g => with_selection (selectionOnMouseDown host g ev) g).

Definition selection_handleMouseUp (ev : MouseEvent) : M unit :=
  on_grid (fun g => with_selection (selectionOnMouseUp host g ev) g).

Definition handleBodyCellHover (ev : MouseEvent) : M unit :=
  on_grid (fun g => with_selection (selectionOnBodyCellHover host g ev) g).

Definition handleCellInteraction (c : CellData) : M unit :=
  on_grid (fun g => with_selection (selectionOnCellInteraction host g c) g).

(** [CellFocusManager.setFocusedCellByNavigationKey(code)]. *)
Definition setFocusedCellByNavigationKey (code : Z) : M unit :=
  on_grid (fun g => with_focus {| focusedCellData := navigate host g code |} g).

Definition handleHeaderClick (ev : MouseEvent) : M unit :=
  clicked <- query (fun g => isHeaderClicked g ev) ;;
  drop <- query (fun g => dropCellData (columnPosition g)) ;;
  if negb clicked || bool_decide (is_Some drop) then ret tt else
  data <- query (fun g => getCellData host g (clientX ev) (clientY ev)) ;;
  match data with
  | None => ret tt
  | Some data =>
      destColumn <- query (fun g => getColumnByPosition host g data) ;;
      match destColumn with
      | Some c => emit (toggleSort c)
      | None => throw "TypeError"
      end
  end.

Definition handleBodyClick (ev : MouseEvent) : M unit :=
  over <- query (fun g => isOverHeader g ev) ;;
  dragging <- query isDragging ;;
  if over || dragging then ret tt else
  cellData <- query (fun g => getCellData host g (clientX ev) (clientY ev)) ;;
  hovered <- query hoveredCellData ;;
  match cellData, hovered with
  | Some cellData, Some hoveredCellData =>
      if negb (cellsEqual host cellData hoveredCellData) then ret tt else
      auto <- query (fun g => selectAutoLinkTableLinks (store g)) ;;
      if negb auto then ret tt else
      match retrieveUrl host (value hoveredCellData) with
      | Some url => emit (window_open url)
      | None => ret tt
      end
  | _, _ => ret tt
  end.

Definition handleStartDragging (ev : MouseEvent) : M unit :=
  data <- query (fun g => getCellData host g (clientX ev) (clientY ev)) ;;
  clicked <- query (fun g => isHeaderClicked g ev) ;;
  match data with
  | None => ret tt
  | Some data =>
      if negb clicked
         || (is_corner_header (region data) && (column data =? 0))
         || (width data - delta data <? COLUMN_RESIZE_AREA_WIDTH)%float
      then ret tt
      else startDragging data
  end.

Definition onMouseUp (ev : MouseEvent) : M unit :=
  r <- isResizing ;;
  if r then stopResizing else
  selection_handleMouseUp ev ;;
  handleHeaderClick ev ;;
  handleBodyClick ev ;;
  dropColumn.

Definition onMouseHover (ev : MouseEvent) : M unit :=
  data <- query (fun g => getCellData host g (clientX ev) (clientY ev)) ;;
  match data with
  | None => ret tt
  | Some data =>
      emit (cellHovered_emit (Some data)) ;;
      handleBodyCellHover ev
  end.

Definition onMouseMove (ev : MouseEvent) : M unit :=
  r <- isResizing ;;
  if r then ret tt else
  when (negb (buttons ev =? 1)) stopDragging ;;
  r <- isResizing ;;
  when (negb r) (setResizeMode ev) ;;
  r <- isResizing ;;
  out <- query (fun g => isOutsideViewport g ev) ;;
  if r || out then ret tt else
  moveDraggedHeader ev ;;
  onMouseHover ev.

Definition onMouseDown (ev : MouseEvent) : M unit :=
  if negb (buttons ev =? 1) then ret tt else
  f <- query focused ;;
  when (negb f) (setFocus true) ;;
  clicked <- query (fun g => isHeaderClicked g ev) ;;
  should <- query (fun g => shouldResizeDataGrid host g ev) ;;
  if negb clicked && should then startResizing ev else
  out <- query (fun g => isOutsideViewport g ev) ;;
  if out then ret tt else
  selection_handleMouseDown ev ;;
  handleStartDragging ev.

Definition onMouseLeave (ev : MouseEvent) : M unit :=
  inside <- query (fun g => isNodeInsideGrid g ev) ;;
  if inside || negb (buttons ev =? 0) then ret tt else
  control <- gets cellHoverControl ;;
  match control with
  | None => throw "TypeError"
  | Some control =>
      clearTimeout (timerId control) ;;
      emit hideTooltips ;;
      emit (cellHovered_emit None) ;;
      setCursorStyle "auto" ;;
      stopDragging ;;
      setFocus false
  end.

(** [grid.rowManager.rows[renderedRowIndex].index]: outside the array the
    element is [undefined] and reading its [index] throws. *)
Definition getRowIndex (renderedRowIndex : Z) : M Z :=
  r <- query (fun g => lookupRow g renderedRowIndex) ;;
  match r with
  | Some r => ret (index r)
  | None => throw "TypeError"
  end.

Definition onMouseDoubleClick (ev : MouseEvent) : M unit :=
  over <- query (fun g => isOverHeader g ev) ;;
  if over then ret tt else
  data <- query (fun g => getCellData host g (clientX ev) (clientY ev)) ;;
  match data with
  | None => ret tt
  | Some data =>
      if is_index (type data) then ret tt else
      row <- getRowIndex (row data) ;;
      has <- query (fun g => selectHasDoubleClickAction (store g)) ;;
      when has (emit (commSignal_emit (DoubleClickMessage row (column data)))) ;;
      tag <- query (fun g => selectDoubleClickTag (store g)) ;;
      when tag (emit (commSignal_emit (ActionDetailsMessage "DOUBLE_CLICK" row (column data))))
  end.

Definition onContextMenu (ev : MouseEvent) : M unit := ret tt.

Definition onWheel (ev : WheelEvent) : M unit :=
  let dx := deltaX ev in
  let dy := deltaY ev in
  g <- gets grid ;;
  match deltaMode ev with
  | 0 => emit (scrollBy dx dy)
  | 1 =>
      let ds := defaultSizes g in
      emit (scrollBy (dx * columnWidth ds) (dy * rowHeight ds))
  | 2 => emit (scrollBy (dx * pageWidth g) (dy * pageHeight g))
  | _ => throw "unreachable"
  end.

Definition handleHighlighterKeyDown (code : Z) (column : option ColumnRef) : M unit :=
  if code =? KeyH (keys host) then
    match column with Some c => emit (toggleHighlighter c HIGHLIGHTER_TYPE.heatmap) | None => ret tt end
  else if code =? KeyU (keys host) then
    match column with Some c => emit (toggleHighlighter c HIGHLIGHTER_TYPE.uniqueEntries) | None => ret tt end
  else if code =? KeyB (keys host) then
    match column with Some c => emit (toggleDataBarsRenderer c) | None => ret tt end
  else ret tt.

Definition handleEnterKeyDown (code : Z) (shiftKey : bool) (cellData : option CellData) : M unit :=
  match cellData with
  | Some cellData =>
      if negb (code =? Enter (keys host)) then ret tt else
      start <- query (fun g => startCellData (cellSelectionManager g)) ;;
      when (negb shiftKey || negb (bool_decide (is_Some start))) (setStartCell cellData) ;;
      handleCellInteraction cellData
  | None => ret tt
  end.

Definition navigationKeyCodes : list Z :=
  [ ArrowLeft (keys host); ArrowRight (keys host); ArrowDown (keys host);
    ArrowUp (keys host); PageUp (keys host); PageDown (keys host) ].

Definition handleNavigationKeyDown (code : Z) (ev : KeyboardEvent) : M unit :=
  if -1 =? indexOf navigationKeyCodes code then ret tt else
  focusedCell <- query (fun g => focusedCellData (cellFocusManager g)) ;;
  (if bool_decide (is_Some focusedCell) then setFocusedCellByNavigationKey code
   else if (code =? PageDown (keys host)) || (code =? PageUp (keys host))
        then emit (scrollByPage (if code =? PageUp (keys host) then "up" else "down"))
        else ret tt) ;;
  if shiftKey ev
  then focusedCell <- query (fun g => focusedCellData (cellFocusManager g)) ;;
       setEndCell focusedCell
  else ret tt.

Definition handleNumKeyDown (code : Z) (shiftKey : bool) (column : option ColumnRef) : M unit :=
  if (code <? Digit0 (keys host)) || (code >? Digit9 (keys host)) then ret tt else
  let number := parseInt (fromCharCode code) in
  match shiftKey, column with
  | true, Some column => setDataTypePrecision column number
  | _, _ => setColumnsDataTypePrecission number
  end.

Definition onKeyDown (ev : KeyboardEvent) : M unit :=
  focusedCell <- query (fun g => focusedCellData (cellFocusManager g)) ;;
  column <- query (fun g => match focusedCell with
                            | Some c => takeColumnByCell host g c
                            | None => None
                            end) ;;
  let code := getEventKeyCode host ev in
  if code =? 0 then ret tt else
  emit stopPropagation ;;
  emit preventDefault ;;
  handleEnterKeyDown code (shiftKey ev) focusedCell ;;
  handleHighlighterKeyDown code column ;;
  handleNumKeyDown code (shiftKey ev) column ;;
  handleNavigationKeyDown code ev.

End EventManager.

(** ** What the theorems observe *)

(** The world after the grid was asked to scroll by [(dx, dy)]. *)
Definition scrolled (dx dy : float) (w : World) : World :=
  with_trace (trace w ++ [scrollBy dx dy]) w.

(** The columns whose sort a trace toggles, in order. *)
Definition sortToggles (t : list Effect) : list ColumnRef :=
  omap (fun e => match e with toggleSort c => Some c | _ => None end) t.

(** The columns after a digit key: the focused column alone when shift is
    held and there is one, every column otherwise. *)
Definition precisionSet (shift : bool) (c : option ColumnRef) (n : number)
    (cs : list DataGridColumn) : list DataGridColumn :=
  match shift, c with
  | true, Some c => <[c := {| precision := n |}]> cs
  | _, _ => (fun _ => {| precision := n |}) <$> cs
  end.

(** The URLs a trace opens, in order. *)
Definition windowOpens (t : list Effect) : list string :=
  omap (fun e => match e with window_open url => Some url | _ => None end) t.

(** The directions a trace scrolls by page, in order. *)
Definition pageScrolls (t : list Effect) : list string :=
  omap (fun e => match e with scrollByPage dir => Some dir | _ => None end) t.

(** The highlighter and data-bar toggles of a trace, in order. *)
Definition columnToggles (t : list Effect) : list Effect :=
  omap (fun e => match e with
                 | toggleHighlighter _ _ | toggleDataBarsRenderer _ => Some e
                 | _ => None
                 end) t.

(** The messages a trace sends over [commSignal], in order. *)
Definition messages (t : list Effect) : list Message :=
  omap (fun e => match e with commSignal_emit m => Some m | _ => None end) t.

(** ** The header context menu *)

(** [createHeaderContextMenuItems] builds the two items that rotate the
    header text. Its view of the grid: the wrapper's id, the header
    height, the store's [selectHeadersVertical()] (by truthiness) and the
    spatial query, of whose result it reads [offsetTop] only. An item's
    [action] is the sequence of calls its closure makes; [isVisible] is
    evaluated later, against the grid and the menu's event as they are
    then. *)
Module HeaderMenu.

Record HeaderCell := { offsetTop : float }.

Record DataGrid := {
  wrapperId : string;
  headerHeight : float;
  selectHeadersVertical : bool;
  getCellData : float -> float -> option HeaderCell
}.

Record DataGridContextMenu := { event : MouseEvent }.

Inductive Call := setHeaderTextVertical (headersVertical : bool) | resize.

Record IContextMenuItem := {
  id : string;
  title : string;
  action : list Call;
  isVisible : DataGrid -> DataGridContextMenu -> bool;
  selector : string
}.

Definition rotateMenuItemAction (headersVertical : bool) : list Call :=
  [setHeaderTextVertical headersVertical; resize].

Definition visible (dataGrid : DataGrid) (contextMenu : DataGridContextMenu)
    (headersVertical : bool) : bool :=
  match getCellData dataGrid (clientX (event contextMenu)) (clientY (event contextMenu)) with
  | None => false
  | Some data =>
      if (headerHeight dataGrid <=? offsetTop data)%float then false
      else headersVertical
  end.

Definition createHeaderContextMenuItems (dataGrid : DataGrid) : list IContextMenuItem :=
  let selector := ("#" ++ wrapperId dataGrid ++ " canvas")%string in
  [ {| id := (wrapperId dataGrid ++ "_verticalHeaders")%string;
       title := "vertical headers";
       action := rotateMenuItemAction true;
       isVisible := fun g m => visible g m (negb (selectHeadersVertical g));
       selector := selector |};
    {| id := (wrapperId dataGrid ++ "_horizontalHeaders")%string;
       title := "horizontal headers";
       action := rotateMenuItemAction false;
       isVisible := fun g m => visible g m (negb (negb (selectHeadersVertical g)));
       selector := selector |} ].

(** The pointer of the menu's event is over a header cell: there is a
    cell, and its top is above the header's height. *)
Definition overHeaderCell (g : DataGrid) (m : DataGridContextMenu) : bool :=
  match getCellData g (clientX (event m)) (clientY (event m)) with
  | Some data => negb (headerHeight g <=? offsetTop data)%float
  | None => false
  end.

End HeaderMenu.

(** ** A concrete host and grid *)

Module Fake.

(** The DOM [keyCode] values. *)
Definition dom_keys : KEYBOARD_KEYS :=
  {| Enter := 13; PageUp := 33; PageDown := 34;
     ArrowLeft := 37; ArrowUp := 38; ArrowRight := 39; ArrowDown := 40;
     Digit0 := 48; Digit9 := 57; KeyB := 66; KeyH := 72; KeyU := 85 |}.

Definition cell (r c : Z) : CellData :=
  {| type := COLUMN_TYPES.body; row := r; column := c; region := body;
     width := 64; delta := 10; value := "v" |}.

(** Focus moves one row down or up, one column right or left. *)
Definition step (c : option CellData) (code : Z) : option CellData :=
  match c with
  | None => None
  | Some c =>
      Some (if code =? 40 then cell (row c + 1) (column c)
            else if code =? 38 then cell (row c - 1) (column c)
            else if code =? 39 then cell (row c) (column c + 1)
            else if code =? 37 then cell (row c) (column c - 1)
            else c)
  end.

(** A host whose spatial query answers [under] everywhere and whose
    controllers keep their state on pointer events. *)
Definition host (under : option CellData) : Host :=
  {| keys := dom_keys;
     getCellData := fun _ _ _ => under;
     isOutsideNode := fun _ _ => false;
     isInsideGridNode := fun _ _ => false;
     getEventKeyCode := keyCode;
     retrieveUrl := fun _ => None;
     cellsEqual := fun a b => (row a =? row b) && (column a =? column b);
     takeColumnByCell := fun _ c => Some (Z.to_nat (column c));
     getColumnByPosition := fun _ c => Some (Z.to_nat (column c));
     shouldResizeDataGrid := fun _ _ => false;
     resizeModeFor := fun g _ => dataGridResize g;
     dropTargetFor := fun _ _ => under;
     selectionOnMouseDown := fun g _ => cellSelectionManager g;
     selectionOnMouseUp := fun g _ => cellSelectionManager g;
     selectionOnBodyCellHover := fun g _ => cellSelectionManager g;
     selectionOnCellInteraction := fun g _ => cellSelectionManager g;
     navigate := fun g code => step (focusedCellData (cellFocusManager g)) code |}.

Definition element (n : Node) : Element :=
  {| node_id := n; listeners := []; rect := {| rect_left := 0; rect_top := 0 |} |}.

(** A grid of three columns and four rows, header 20 pixels high, with
    nothing focused, selected, dragged or resized. *)
Definition grid0 : Grid :=
  {| node := element 1; tableDisplayView_el := element 2;
     viewport_node := element 3; _canvas := 4;
     bodyWidth := 300; headerHeight := 20; rowHeaderSections_length := 1%nat;
     defaultSizes := {| columnWidth := 64; rowHeight := 20 |};
     pageWidth := 300; pageHeight := 500; focused := false;
     dataGridResize := {| resizing := false; cursor := "auto" |};
     columnPosition := {| grabbedCellData := None; dropCellData := None |};
     cellSelectionManager := {| startCellData := None; endCellData := None |};
     cellFocusManager := {| focusedCellData := None |};
     hoveredCellData := None;
     columns := [ {| precision := Int 4 |}; {| precision := Int 4 |}; {| precision := Int 4 |} ];
     rows := [ {| index := 2 |}; {| index := 0 |}; {| index := 3 |}; {| index := 1 |} ];
     store := {| selectHasDoubleClickAction := true; selectDoubleClickTag := true;
                 selectAutoLinkTableLinks := false |} |}.

Definition world0 : World := constructor grid0.

Definition mouse (x y : float) (b bs : Z) (t : Node) : MouseEvent :=
  {| clientX := x; clientY := y; button := b; buttons := bs; target := t |}.

(** A header cell of column 1 is grabbed. *)
Definition dragging : World :=
  with_grid (with_columnPosition
               {| grabbedCellData := Some (cell 0 1); dropCellData := None |}) world0.

(** The same while a resize gesture is active. *)
Definition dragging_while_resizing : World :=
  with_grid (with_resize {| resizing := true; cursor := "col-resize" |}) dragging.

(** The body cell of row 1, column 1 has the focus; nothing is selected. *)
Definition focusing : World :=
  with_grid (with_focus {| focusedCellData := Some (cell 1 1) |}) world0.


(** Cells (0,0) to (2,2) are selected and nothing has the focus. *)
Definition selected : World :=
  with_grid (with_selection
               {| startCellData := Some (cell 0 0);
                  endCellData := Some (cell 2 2) |}) world0.

(** The grid with the double-click tag on and the double-click action
    off. *)
Definition tag_only : World :=
  with_grid (fun g =>
    {| node := node g; tableDisplayView_el := tableDisplayView_el g;
       viewport_node := viewport_node g; _canvas := _canvas g;
       bodyWidth := bodyWidth g; headerHeight := headerHeight g;
       rowHeaderSections_length := rowHeaderSections_length g;
       defaultSizes := defaultSizes g;
       pageWidth := pageWidth g; pageHeight := pageHeight g; focused := focused g;
       dataGridResize := dataGridResize g; columnPosition := columnPosition g;
       cellSelectionManager := cellSelectionManager g;
       cellFocusManager := cellFocusManager g; hoveredCellData := hoveredCellData g;
       columns := columns g; rows := rows g;
       store := {| selectHasDoubleClickAction := false; selectDoubleClickTag := true;
                   selectAutoLinkTableLinks := false |} |}) world0.

(** The host [host under], except that no column is found at a header
    cell's position when [found] is off, and that the resize controller
    asks for a resize when [boundary] is on. *)
Definition host_with (under : option CellData) (found boundary : bool) : Host :=
  {| keys := dom_keys;
     getCellData := fun _ _ _ => under;
     isOutsideNode := fun _ _ => false;
     isInsideGridNode := fun _ _ => false;
     getEventKeyCode := keyCode;
     retrieveUrl := fun _ => None;
     cellsEqual := fun a b => (row a =? row b) && (column a =? column b);
     takeColumnByCell := fun _ c => Some (Z.to_nat (column c));
     getColumnByPosition := fun _ c => if found then Some (Z.to_nat (column c)) else None;
     shouldResizeDataGrid := fun _ _ => boundary;
     resizeModeFor := fun g _ => dataGridResize g;
     dropTargetFor := fun _ _ => under;
     selectionOnMouseDown := fun g _ => cellSelectionManager g;
     selectionOnMouseUp := fun g _ => cellSelectionManager g;
     selectionOnBodyCellHover := fun g _ => cellSelectionManager g;
     selectionOnCellInteraction := fun g _ => cellSelectionManager g;
     navigate := fun g code => step (focusedCellData (cellFocusManager g)) code |}.

(** The header menu's view of a grid whose headers are horizontal, with a
    header cell at the top and a body cell below it. *)
Definition menu_grid : HeaderMenu.DataGrid :=
  {| HeaderMenu.wrapperId := "wrap_1";
     HeaderMenu.headerHeight := 20;
     HeaderMenu.selectHeadersVertical := false;
     HeaderMenu.getCellData := fun _ y =>
       Some {| HeaderMenu.offsetTop := if (y <? 20)%float then 0 else 20 |} |}.

(** A hover callback waits under timer 7. *)
Definition hovering : World :=
  with_timers [(7%nat, hoverTask)] 8
    (with_cellHoverControl (Some {| timerId := Some 7%nat |}) world0).

End Fake.

(** ** Running the monad *)

Ltac run :=
  cbv beta iota zeta delta
    [ bind ret throw gets modify when query emit on_grid
      isResizing startResizing stopResizing setCursorStyle
      startDragging stopDragging dropColumn setStartCell setEndCell setFocus
      setDataTypePrecision setColumnsDataTypePrecission setResizeMode
      moveDraggedHeader selection_handleMouseDown selection_handleMouseUp
      handleBodyCellHover handleCellInteraction setFocusedCellByNavigationKey
      setTimeout clearTimeout clearReferences isDisposed world_of ].

(** ** Pointer gestures *)

Section Pointer.

Variable host : Host.

(** C10. A mouse-down whose [buttons] is not 1 does nothing at all: the
    handler returns at once and the world (focus, resize, selection,
    column drag, listeners, timers, trace) is the one it was given. *)
Theorem onMouseDown_without_primary_button (w : World) (ev : MouseEvent) :
  buttons ev <> 1 -> onMouseDown host ev w = Normal tt w.
Proof.
  intros Hb. unfold onMouseDown.
  destruct (Z.eqb_spec (buttons ev) 1) as [E|_]; [contradiction|].
  reflexivity.
Qed.

(** The hover notification leaves the column-position controller alone. *)
Lemma onMouseHover_columnPosition (ev : MouseEvent) (w : World) :
  exists w', onMouseHover host ev w = Normal tt w'
             /\ columnPosition (grid w') = columnPosition (grid w).
Proof.
  unfold onMouseHover. run.
  destruct (getCellData host (grid w) (clientX ev) (clientY ev)); eauto.
Qed.

(** C4, as the code has it. A mouse-move whose [buttons] is not 1 and
    that arrives while no resize is active completes with no column drag
    in progress: the drag was cancelled by [stopDragging] and no later
    step starts one. While a resize is active the handler returns at once
    and changes nothing. *)
Theorem onMouseMove_cancels_drag (w : World) (ev : MouseEvent) :
  buttons ev <> 1 ->
  (resizing (dataGridResize (grid w)) = false ->
   exists w', onMouseMove host ev w = Normal tt w'
              /\ isDragging (grid w') = false)
  /\ (resizing (dataGridResize (grid w)) = true ->
      onMouseMove host ev w = Normal tt w).
Proof.
  intros Hb. split; intros Hr.
  2: { unfold onMouseMove. run. rewrite Hr. reflexivity. }
  unfold onMouseMove. run. cbn -[onMouseHover]. rewrite Hr.
  destruct (Z.eqb_spec (buttons ev) 1) as [E|_]; [contradiction|].
  cbn -[onMouseHover]. rewrite Hr. cbn -[onMouseHover].
  match goal with
  | |- context [if ?c then _ else _] => destruct c
  end.
  - eexists; split; [reflexivity|]. reflexivity.
  - match goal with
    | |- context [onMouseHover host ev ?w1] =>
        destruct (onMouseHover_columnPosition ev w1) as (w' & -> & Hcp)
    end.
    exists w'. split; [reflexivity|].
    unfold isDragging. rewrite Hcp. reflexivity.
Qed.

End Pointer.

(** ** Disposal and the hover timer *)

Section Disposal.

Lemma elem_of_addEventListener (ty : string) (h : Handler) (e : Element) :
  (ty, h) ∈ listeners (addEventListener ty h e).
Proof.
  unfold addEventListener; cbn.
  destruct (existsb (same_listener ty h) (listeners e)) eqn:Ex.
  - apply existsb_exists in Ex as (l & Hin & Hl).
    unfold same_listener in Hl. apply bool_decide_eq_true in Hl. subst l.
    now apply list_elem_of_In.
  - apply elem_of_app. right. now apply list_elem_of_singleton.
Qed.

Lemma elem_of_addEventListener_mono (l : Listener) (ty : string) (h : Handler) (e : Element) :
  l ∈ listeners e -> l ∈ listeners (addEventListener ty h e).
Proof.
  intros Hl. unfold addEventListener; cbn.
  destruct (existsb _ _); [done|]. apply elem_of_app. now left.
Qed.

Lemma elem_of_removeEventListener (l : Listener) (ty : string) (h : Handler) (e : Element) :
  l ∈ listeners (removeEventListener ty h e) <-> l ∈ listeners e /\ l <> (ty, h).
Proof.
  unfold removeEventListener; cbn. rewrite list_elem_of_filter.
  unfold same_listener. rewrite bool_decide_eq_false. tauto.
Qed.

(** A disposed manager ignores [dispose]. *)
Lemma dispose_disposed (w : World) :
  _disposed w = true -> dispose w = Normal tt w.
Proof. intros Hd. unfold dispose. run. now rewrite Hd. Qed.

(** [dispose] twice is [dispose] once. *)
Lemma dispose_twice (w : World) :
  (dispose ;; dispose) w = dispose w.
Proof.
  unfold dispose at 1 3. run. destruct (_disposed w) eqn:Hd.
  - now apply dispose_disposed.
  - now apply dispose_disposed.
Qed.

(** What the first [dispose] does, step by step. *)
Lemma dispose_first (w : World) :
  _disposed w = false ->
  dispose w =
  Normal tt
    (with_disposed true
       (with_grid (with_el (removeEventListener "mousedown" handleMouseDown))
          (with_grid (with_node (removeEventListener "mousemove" handleMouseLeave))
             (with_grid (with_node (removeEventListener "mousemove" handleMouseMove))
                (with_timers (timers w ++ [(nextTimer w, nullCellHoverControl)])
                             (S (nextTimer w)) w))))).
Proof. intros Hd. unfold dispose. run. now rewrite Hd. Qed.

(** C1, on the code. After [new EventManager(grid)], the first [dispose]
    marks the manager disposed and a second one changes nothing; it
    removes the [mousemove] listener of the grid node and the [mousedown]
    listener of the table-display element, but the [mouseout] listener is
    still registered on the grid node: line 74 asks to remove
    [handleMouseLeave] from the [mousemove] listeners, where it never was. *)
Theorem dispose_leaves_mouseout_listener (g : Grid) :
  exists w',
    dispose (constructor g) = Normal tt w'
    /\ _disposed w' = true
    /\ dispose w' = Normal tt w'
    /\ (("mousemove", handleMouseMove) ∉ listeners (node (grid w')))
    /\ (("mousedown", handleMouseDown) ∉ listeners (tableDisplayView_el (grid w')))
    /\ (("mouseout", handleMouseLeave) ∈ listeners (node (grid w'))).
Proof.
  eexists. split; [apply dispose_first; reflexivity|].
  split; [reflexivity|]. split; [apply dispose_disposed; reflexivity|].
  cbn -[addEventListener removeEventListener].
  repeat split.
  - intros H. apply elem_of_removeEventListener in H as [H _].
    apply elem_of_removeEventListener in H as [_ H]. now apply H.
  - intros H. apply elem_of_removeEventListener in H as [_ H]. now apply H.
  - apply elem_of_removeEventListener. split; [|discriminate].
    apply elem_of_removeEventListener. split; [|discriminate].
    apply elem_of_addEventListener.
Qed.

Variable host : Host.

(** What [onMouseLeave] does once the pointer has left the grid with no
    button held and the hover control is still there. *)
Lemma onMouseLeave_outside (w : World) (ev : MouseEvent) (c : HoverControl) :
  isNodeInsideGrid host (grid w) ev = false ->
  buttons ev = 0 ->
  cellHoverControl w = Some c ->
  exists w',
    onMouseLeave host ev w = Normal tt w'
    /\ timers w' = match timerId c with
                   | Some n => filter (fun t => t.1 <> n) (timers w)
                   | None => timers w
                   end
    /\ trace w' = (trace w ++ [hideTooltips; cellHovered_emit None])%list
    /\ isDragging (grid w') = false
    /\ focused (grid w') = false.
Proof.
  intros Hin Hb Hc. unfold onMouseLeave. run. rewrite Hin, Hb. cbn.
  rewrite Hc. cbn.
  eexists. split; [reflexivity|].
  destruct (timerId c); cbn; rewrite <- ?app_assoc; auto.
Qed.

(** C2, as the code has it. With a hover callback pending under
    [cellHoverControl.timerId]: [onMouseLeave], once the pointer is outside
    the grid with no button held, cancels that timer; the first [dispose]
    does not: it only queues the deferred task that will null
    [cellHoverControl], and the hover callback stays pending. *)
Theorem hover_timer_cancelled_on_leave_not_on_dispose
    (w : World) (ev : MouseEvent) (n : nat) :
  cellHoverControl w = Some {| timerId := Some n |} ->
  (n, hoverTask) ∈ timers w ->
  (isNodeInsideGrid host (grid w) ev = false -> buttons ev = 0 ->
   exists w', onMouseLeave host ev w = Normal tt w'
              /\ forall t, (n, t) ∉ timers w')
  /\ (_disposed w = false ->
      exists w', dispose w = Normal tt w'
                 /\ (n, hoverTask) ∈ timers w'
                 /\ timers w' = (timers w ++ [(nextTimer w, nullCellHoverControl)])%list
                 /\ cellHoverControl w' = cellHoverControl w).
Proof.
  intros Hc Hn. split.
  - intros Hin Hb.
    destruct (onMouseLeave_outside w ev _ Hin Hb Hc) as (w' & Hrun & Ht & _).
    exists w'. split; [exact Hrun|]. intros t Hmem.
    rewrite Ht in Hmem. cbn in Hmem.
    apply list_elem_of_filter in Hmem as [Hne _]. now apply Hne.
  - intros Hd. eexists. split; [apply dispose_first; exact Hd|]. cbn.
    split; [|split; reflexivity]. apply elem_of_app. now left.
Qed.

End Disposal.

(** ** The wheel *)

Section Wheel.

(** C3. [onWheel] turns the delta pair into pixels by [deltaMode] and asks
    the grid to scroll by exactly that: mode 0 as it is, mode 1 times the
    default column width and row height, mode 2 times the page width and
    height; any other mode throws ['unreachable'] and nothing is scrolled.
    So mode 1 with [deltaY = 2] and row height 20 scrolls by [dy = 40], and
    mode 2 with [deltaY = 1] and page height 500 scrolls by 500. *)
Theorem onWheel_converts_delta (w : World) (ev : WheelEvent) :
  (deltaMode ev = 0 ->
   onWheel ev w = Normal tt (scrolled (deltaX ev) (deltaY ev) w))
  /\ (deltaMode ev = 1 ->
      onWheel ev w =
      Normal tt (scrolled (deltaX ev * columnWidth (defaultSizes (grid w)))
                          (deltaY ev * rowHeight (defaultSizes (grid w))) w))
  /\ (deltaMode ev = 2 ->
      onWheel ev w =
      Normal tt (scrolled (deltaX ev * pageWidth (grid w))
                          (deltaY ev * pageHeight (grid w)) w))
  /\ (deltaMode ev <> 0 -> deltaMode ev <> 1 -> deltaMode ev <> 2 ->
      onWheel ev w = Throw "unreachable" w)
  /\ (deltaMode ev = 1 -> deltaY ev = 2%float ->
      rowHeight (defaultSizes (grid w)) = 20%float ->
      exists dx, onWheel ev w = Normal tt (scrolled dx 40 w))
  /\ (deltaMode ev = 2 -> deltaY ev = 1%float ->
      pageHeight (grid w) = 500%float ->
      exists dx, onWheel ev w = Normal tt (scrolled dx 500 w)).
Proof.
  unfold onWheel, scrolled. run.
  repeat split.
  - intros ->. reflexivity.
  - intros ->. reflexivity.
  - intros ->. reflexivity.
  - intros H0 H1 H2.
    destruct (deltaMode ev) as [|p|p]; try congruence;
      destruct p as [p|p|]; try congruence; destruct p; congruence.
  - intros -> -> ->. eexists. reflexivity.
  - intros -> -> ->. eexists. reflexivity.
Qed.

End Wheel.

(** ** Clicks *)

Section Clicks.

Variable host : Host.

Lemma handleHeaderClick_not_clicked (ev : MouseEvent) (w : World) :
  isHeaderClicked (grid w) ev = false ->
  handleHeaderClick host ev w = Normal tt w.
Proof. intros Hc. unfold handleHeaderClick. run. now rewrite Hc. Qed.

Lemma handleBodyClick_sortToggles (ev : MouseEvent) (w : World) :
  exists w', handleBodyClick host ev w = Normal tt w'
             /\ sortToggles (trace w') = sortToggles (trace w).
Proof.
  unfold handleBodyClick. run.
  repeat match goal with
         | |- context [if ?c then _ else _] => destruct c
         | |- context [match ?c with Some _ => _ | None => _ end] => destruct c
         end;
    eexists; (split; [reflexivity|]); cbn; try reflexivity.
  unfold sortToggles. rewrite omap_app. cbn. now rewrite app_nil_r.
Qed.

Lemma isHeaderClicked_true (g : Grid) (ev : MouseEvent) :
  isHeaderClicked g ev = true <->
  isOverHeader g ev = true /\ button ev = 0 /\ target ev = _canvas g.
Proof.
  unfold isHeaderClicked.
  rewrite !andb_true_iff, Z.eqb_eq, bool_decide_eq_true. tauto.
Qed.

Lemma onMouseUp_not_clicked (ev : MouseEvent) (w : World) :
  isHeaderClicked (grid w) ev = false ->
  sortToggles (trace (world_of (onMouseUp host ev w))) = sortToggles (trace w).
Proof.
  intros Hc. unfold onMouseUp. run.
  destruct (resizing (dataGridResize (grid w))); [reflexivity|].
  cbn -[handleHeaderClick handleBodyClick isHeaderClicked].
  rewrite handleHeaderClick_not_clicked by exact Hc.
  match goal with
  | |- context [handleBodyClick host ev ?w1] =>
      destruct (handleBodyClick_sortToggles ev w1) as (w' & -> & Hs)
  end.
  cbn. exact Hs.
Qed.

(** C5. On mouse-up a column's sort is toggled only on a header click:
    when the pointer is not over the header, or the button is not the
    primary one, or the event's target is not the grid's canvas, the
    handler toggles no sort; so a toggle implies all three conditions. *)
Theorem sort_toggle_only_on_header_click (w : World) (ev : MouseEvent) :
  let w' := world_of (onMouseUp host ev w) in
  (isOverHeader (grid w) ev = false \/ button ev <> 0 \/ target ev <> _canvas (grid w) ->
   sortToggles (trace w') = sortToggles (trace w))
  /\ (sortToggles (trace w') <> sortToggles (trace w) ->
      isOverHeader (grid w) ev = true /\ button ev = 0 /\ target ev = _canvas (grid w)).
Proof.
  cbv zeta. split.
  - intros Hfail. apply onMouseUp_not_clicked.
    destruct (isHeaderClicked (grid w) ev) eqn:Hc; [|reflexivity].
    apply isHeaderClicked_true in Hc as (Ho & Hb & Ht).
    destruct Hfail as [H|[H|H]]; congruence.
  - intros Hdiff. apply isHeaderClicked_true.
    destruct (isHeaderClicked (grid w) ev) eqn:Hc; [reflexivity|].
    now apply onMouseUp_not_clicked in Hc.
Qed.

Lemma lookupRow_out_of_range (g : Grid) (i : Z) :
  i < 0 \/ Z.of_nat (length (rows g)) <= i -> lookupRow g i = None.
Proof.
  intros Hrange. unfold lookupRow.
  destruct (Z.leb_spec 0 i) as [Hle|Hlt]; [|reflexivity].
  apply lookup_ge_None_2. lia.
Qed.

Lemma lookupRow_in_range (g : Grid) (i : Z) :
  0 <= i < Z.of_nat (length (rows g)) -> is_Some (lookupRow g i).
Proof.
  intros Hrange. unfold lookupRow.
  destruct (Z.leb_spec 0 i) as [Hle|Hlt]; [|lia].
  apply lookup_lt_is_Some_2. lia.
Qed.

(** C6, as the code has it. A double-click over a cell that is not under
    the header and not of the index column, whose rendered row index is
    within the rows collection, with both feature flags on, emits exactly
    two messages: the double-click message, then the action-detail message
    tagged DOUBLE_CLICK, both with the row's logical index and the cell's
    column. *)
Theorem onMouseDoubleClick_emits_two_messages
    (w : World) (ev : MouseEvent) (data : CellData) :
  isOverHeader (grid w) ev = false ->
  getCellData host (grid w) (clientX ev) (clientY ev) = Some data ->
  type data <> COLUMN_TYPES.index ->
  0 <= row data < Z.of_nat (length (rows (grid w))) ->
  selectHasDoubleClickAction (store (grid w)) = true ->
  selectDoubleClickTag (store (grid w)) = true ->
  exists r,
    lookupRow (grid w) (row data) = Some r
    /\ onMouseDoubleClick host ev w =
       Normal tt (with_trace
                    (trace w ++
                     [ commSignal_emit (DoubleClickMessage (index r) (column data));
                       commSignal_emit (ActionDetailsMessage "DOUBLE_CLICK" (index r) (column data)) ])
                    w).
Proof.
  intros Ho Hd Ht Hrange Hf1 Hf2.
  destruct (lookupRow_in_range (grid w) (row data) Hrange) as [r Hr].
  exists r. split; [exact Hr|].
  unfold onMouseDoubleClick, getRowIndex. run.
  rewrite Ho, Hd. cbn -[lookupRow].
  destruct (type data); [contradiction|]. cbn -[lookupRow].
  rewrite Hr. cbn. rewrite Hf1. cbn. rewrite Hf2. cbn.
  unfold with_trace. cbn. now rewrite <- app_assoc.
Qed.

(** C9. The row lookup has no bounds check: a double-click over a cell
    that is not under the header and not of the index column, whose
    rendered row index is outside the rows collection, throws a
    [TypeError]; nothing is emitted and nothing turns it into a no-op. *)
Theorem onMouseDoubleClick_row_out_of_range
    (w : World) (ev : MouseEvent) (data : CellData) :
  isOverHeader (grid w) ev = false ->
  getCellData host (grid w) (clientX ev) (clientY ev) = Some data ->
  type data <> COLUMN_TYPES.index ->
  (row data < 0 \/ Z.of_nat (length (rows (grid w))) <= row data) ->
  onMouseDoubleClick host ev w = Throw "TypeError" w.
Proof.
  intros Ho Hd Ht Hrange.
  unfold onMouseDoubleClick, getRowIndex. run.
  rewrite Ho, Hd. cbn -[lookupRow].
  destruct (type data); [contradiction|]. cbn -[lookupRow].
  now rewrite lookupRow_out_of_range.
Qed.

End Clicks.

(** ** The keyboard *)

Section Keyboard.

Variable host : Host.

Local Abbreviation K := (keys host).

Lemma indexOf_elem_of (l : list Z) (x : Z) : x ∈ l -> 0 <= indexOf l x.
Proof.
  induction l as [|y l IH]; intros Hin.
  - now apply elem_of_nil in Hin.
  - cbn. destruct (Z.eqb_spec y x) as [->|Hne]; [lia|].
    apply elem_of_cons in Hin as [->|Hin]; [congruence|].
    specialize (IH Hin). destruct (Z.eqb_spec (indexOf l x) (-1)); lia.
Qed.

Lemma indexOf_not_elem_of (l : list Z) (x : Z) : x ∉ l -> indexOf l x = -1.
Proof.
  induction l as [|y l IH]; intros Hin; [reflexivity|].
  apply not_elem_of_cons in Hin as [Hne Hin]. cbn.
  destruct (Z.eqb_spec y x) as [->|_]; [congruence|].
  now rewrite IH.
Qed.

(** Enter only: any other code leaves the world as it is, and Enter
    itself only writes the selection. *)
Lemma handleEnterKeyDown_other (code : Z) (shift : bool) (c : option CellData) (w : World) :
  code <> Enter K -> handleEnterKeyDown host code shift c w = Normal tt w.
Proof.
  intros Hne. unfold handleEnterKeyDown. destruct c; [|reflexivity].
  destruct (Z.eqb_spec code (Enter K)); [contradiction|]. reflexivity.
Qed.

Lemma handleEnterKeyDown_columns (code : Z) (shift : bool) (c : option CellData) (w : World) :
  exists w', handleEnterKeyDown host code shift c w = Normal tt w'
             /\ columns (grid w') = columns (grid w).
Proof.
  unfold handleEnterKeyDown. run. destruct c; [|eauto].
  destruct (negb (code =? Enter K)); [eauto|].
  destruct (negb shift || _); eexists; (split; [reflexivity|]); reflexivity.
Qed.

(** The highlighter keys only leave the event manager: the grid's state
    is the same after them. *)
Lemma handleHighlighterKeyDown_grid (code : Z) (c : option ColumnRef) (w : World) :
  exists w', handleHighlighterKeyDown host code c w = Normal tt w'
             /\ grid w' = grid w.
Proof.
  unfold handleHighlighterKeyDown. run.
  destruct (code =? KeyH K); [destruct c; eauto|].
  destruct (code =? KeyU K); [destruct c; eauto|].
  destruct (code =? KeyB K); [destruct c; eauto|]. eauto.
Qed.

Lemma handleNumKeyDown_other (code : Z) (shift : bool) (c : option ColumnRef) (w : World) :
  code < Digit0 K \/ Digit9 K < code ->
  handleNumKeyDown host code shift c w = Normal tt w.
Proof.
  intros Hout. unfold handleNumKeyDown.
  destruct (Z.ltb_spec code (Digit0 K)); [reflexivity|].
  destruct (Z.gtb_spec code (Digit9 K)); [reflexivity|]. lia.
Qed.

Lemma handleNumKeyDown_digit (code : Z) (shift : bool) (c : option ColumnRef) (w : World) :
  Digit0 K = 48 -> Digit9 K = 57 -> 48 <= code <= 57 ->
  handleNumKeyDown host code shift c w =
  Normal tt (with_grid (fun g => with_columns
                         (precisionSet shift c (Int (code - 48)) (columns g)) g) w).
Proof.
  intros H0 H9 Hc. unfold handleNumKeyDown, precisionSet. rewrite H0, H9.
  destruct (Z.ltb_spec code 48); [lia|].
  destruct (Z.gtb_spec code 57); [lia|]. cbn.
  unfold fromCharCode, parseInt. rewrite Z.mod_small by lia.
  destruct (Z.leb_spec 48 code); [|lia].
  destruct (Z.leb_spec code 57); [|lia]. cbn.
  destruct shift, c; reflexivity.
Qed.

Lemma handleNavigationKeyDown_columns (code : Z) (ev : KeyboardEvent) (w : World) :
  exists w', handleNavigationKeyDown host code ev w = Normal tt w'
             /\ columns (grid w') = columns (grid w).
Proof.
  unfold handleNavigationKeyDown. run.
  destruct (-1 =? indexOf _ code); [eauto|].
  destruct (bool_decide _); cbn.
  - destruct (shiftKey ev); eexists; (split; [reflexivity|]); reflexivity.
  - destruct (_ || _); cbn;
      destruct (shiftKey ev); eexists; (split; [reflexivity|]); reflexivity.
Qed.

(** A navigation key with a focused cell moves the focus; with shift held
    the selection's end follows it and the anchor stays. *)
Lemma handleNavigationKeyDown_shift (code : Z) (ev : KeyboardEvent) (c0 : CellData) (w : World) :
  code ∈ navigationKeyCodes host ->
  shiftKey ev = true ->
  focusedCellData (cellFocusManager (grid w)) = Some c0 ->
  exists w', handleNavigationKeyDown host code ev w = Normal tt w'
    /\ startCellData (cellSelectionManager (grid w'))
       = startCellData (cellSelectionManager (grid w))
    /\ focusedCellData (cellFocusManager (grid w')) = navigate host (grid w) code
    /\ endCellData (cellSelectionManager (grid w')) = navigate host (grid w) code.
Proof.
  intros Hin Hs Hf. unfold handleNavigationKeyDown. run.
  apply indexOf_elem_of in Hin.
  destruct (Z.eqb_spec (-1) (indexOf (navigationKeyCodes host) code)); [lia|].
  rewrite Hf, Hs. cbn. eexists. split; [reflexivity|]. cbn. auto.
Qed.

(** C7. A key-down of an arrow key with shift held, while a cell is
    focused: the selection anchor is what it was (unset if it was unset),
    the focus moves to the cell the navigation computes, and the
    selection's end is set to that newly focused cell. The arrow's code is
    a recognised key code, not Enter's and not a digit's. *)
Theorem shift_arrow_sets_end_keeps_anchor
    (w : World) (ev : KeyboardEvent) (code : Z) (c0 : CellData) :
  getEventKeyCode host ev = code ->
  code ∈ [ArrowLeft K; ArrowUp K; ArrowRight K; ArrowDown K] ->
  code <> 0 -> code <> Enter K -> (code < Digit0 K \/ Digit9 K < code) ->
  shiftKey ev = true ->
  focusedCellData (cellFocusManager (grid w)) = Some c0 ->
  startCellData (cellSelectionManager (grid w)) = None ->
  exists w', onKeyDown host ev w = Normal tt w'
    /\ startCellData (cellSelectionManager (grid w')) = None
    /\ focusedCellData (cellFocusManager (grid w')) = navigate host (grid w) code
    /\ endCellData (cellSelectionManager (grid w')) = navigate host (grid w) code.
Proof.
  intros Hcode Harrow Hnz Hent Hdig Hs Hf Ha.
  assert (Hnav : code ∈ navigationKeyCodes host).
  { unfold navigationKeyCodes. rewrite !elem_of_cons in Harrow |- *.
    rewrite elem_of_nil in Harrow. tauto. }
  unfold onKeyDown. rewrite Hcode.
  cbv beta iota zeta delta [bind ret gets modify query emit].
  destruct (Z.eqb_spec code 0); [contradiction|].
  rewrite handleEnterKeyDown_other by exact Hent.
  match goal with
  | |- context [handleHighlighterKeyDown host code ?c ?w1] =>
      destruct (handleHighlighterKeyDown_grid code c w1) as (w2 & -> & Hg2)
  end.
  rewrite handleNumKeyDown_other by exact Hdig.
  cbn in Hg2.
  destruct (handleNavigationKeyDown_shift code ev c0 w2 Hnav Hs) as (w' & -> & H1 & H2 & H3).
  { now rewrite Hg2. }
  exists w'. rewrite Hg2 in H1, H2, H3. rewrite H1. auto.
Qed.

(** C8, as the code has it. A key-down of the digit key [d] (code
    [48 + d]) sets the display precision to [d]: on the focused column
    alone, every other column keeping its precision, when shift is held
    and the focused cell has a column; on every column otherwise, that is
    without shift, or with shift but no focused column. *)
Theorem digit_key_sets_precision (w : World) (ev : KeyboardEvent) (d : Z) :
  Digit0 K = 48 -> Digit9 K = 57 ->
  0 <= d <= 9 ->
  getEventKeyCode host ev = 48 + d ->
  let column := match focusedCellData (cellFocusManager (grid w)) with
                | Some c => takeColumnByCell host (grid w) c
                | None => None
                end in
  exists w', onKeyDown host ev w = Normal tt w'
    /\ length (columns (grid w')) = length (columns (grid w))
    /\ (forall c, shiftKey ev = true -> column = Some c ->
        (forall col, columns (grid w) !! c = Some col ->
                     columns (grid w') !! c = Some {| precision := Int d |})
        /\ (forall i, i <> c -> columns (grid w') !! i = columns (grid w) !! i))
    /\ (shiftKey ev = false \/ column = None ->
        forall i col, columns (grid w') !! i = Some col -> precision col = Int d).
Proof.
  intros H0 H9 Hd Hcode column.
  unfold onKeyDown. rewrite Hcode.
  cbv beta iota zeta delta [bind ret gets modify query emit].
  fold column.
  destruct (Z.eqb_spec (48 + d) 0); [lia|].
  match goal with
  | |- context [handleEnterKeyDown host ?a ?b ?c ?w1] =>
      destruct (handleEnterKeyDown_columns a b c w1) as (w1' & -> & Hc1)
  end.
  match goal with
  | |- context [handleHighlighterKeyDown host ?a ?c ?w1] =>
      destruct (handleHighlighterKeyDown_grid a c w1) as (w2 & -> & Hg2)
  end.
  rewrite handleNumKeyDown_digit by (assumption || lia).
  match goal with
  | |- context [handleNavigationKeyDown host ?a ?b ?w1] =>
      destruct (handleNavigationKeyDown_columns a b w1) as (w' & -> & Hc3)
  end.
  exists w'. split; [reflexivity|].
  cbn in Hc1, Hc3. rewrite Hg2, Hc1 in Hc3. rewrite Hc3.
  replace (48 + d - 48) with d by lia.
  split; [|split].
  - unfold precisionSet.
    destruct (shiftKey ev), column; now rewrite ?length_insert, ?length_fmap.
  - intros c Hs Hcol. rewrite Hs, Hcol. cbn. split.
    + intros col Hl. apply list_lookup_insert_eq.
      now apply lookup_lt_Some in Hl.
    + intros i Hi. now apply list_lookup_insert_ne.
  - intros Hor i col Hl.
    assert (Hall : precisionSet (shiftKey ev) column (Int d) (columns (grid w))
                   = (fun _ => {| precision := Int d |}) <$> columns (grid w)).
    { unfold precisionSet.
      destruct Hor as [-> | ->]; [reflexivity|]. now destruct (shiftKey ev). }
    rewrite Hall, list_lookup_fmap in Hl.
    destruct (columns (grid w) !! i); simplify_eq/=. reflexivity.
Qed.

End Keyboard.

(** ** Concrete runs *)

Section Runs.

Import Fake.

(** After construction and disposal the grid node still carries exactly
    the [mouseout] listener. *)
Example dispose_world0_listeners :
  listeners (node (grid (world_of (dispose world0)))) = [("mouseout", handleMouseLeave)]
  /\ listeners (tableDisplayView_el (grid (world_of (dispose world0)))) = [].
Proof. split; reflexivity. Qed.

(** The claim of C2 fails on [dispose]: the hover callback under timer 7
    is still pending after it, and fires once the event loop reaches it,
    after the deferred task has nulled [cellHoverControl]. *)
Lemma dispose_leaves_hover_timer_pending :
  timers (world_of (dispose hovering)) = [(7%nat, hoverTask); (8%nat, nullCellHoverControl)]
  /\ world_of ((dispose ;; fire 8 ;; fire 7) hovering)
     = with_trace [hoverCallback]
         (with_cellHoverControl None
            (with_timers [] 9 (world_of (dispose world0)))).
Proof. split; reflexivity. Qed.

Lemma hover_timer_witness :
  (exists w', onMouseLeave (host None) (mouse 400 50 0 0 1) hovering = Normal tt w'
              /\ forall t, (7%nat, t) ∉ timers w')
  /\ (exists w', dispose hovering = Normal tt w'
                 /\ (7%nat, hoverTask) ∈ timers w'
                 /\ timers w' = (timers hovering ++ [(nextTimer hovering, nullCellHoverControl)])%list
                 /\ cellHoverControl w' = cellHoverControl hovering).
Proof.
  destruct (hover_timer_cancelled_on_leave_not_on_dispose
              (host None) hovering (mouse 400 50 0 0 1) 7 eq_refl) as [Hleave Hdispose].
  - apply list_elem_of_here.
  - split; [apply Hleave; reflexivity | apply Hdispose; reflexivity].
Defined.

Lemma onWheel_line_and_page_witness :
  onWheel {| deltaX := 0; deltaY := 2; deltaMode := 1 |} world0
  = Normal tt (scrolled 0 40 world0)
  /\ onWheel {| deltaX := 0; deltaY := 1; deltaMode := 2 |} world0
     = Normal tt (scrolled 0 500 world0)
  /\ onWheel {| deltaX := 0; deltaY := 1; deltaMode := 3 |} world0
     = Throw "unreachable" world0.
Proof.
  split; [|split].
  - exact (proj1 (proj2 (onWheel_converts_delta world0
                            {| deltaX := 0; deltaY := 2; deltaMode := 1 |})) eq_refl).
  - exact (proj1 (proj2 (proj2 (onWheel_converts_delta world0
                                   {| deltaX := 0; deltaY := 1; deltaMode := 2 |}))) eq_refl).
  - apply (proj1 (proj2 (proj2 (proj2 (onWheel_converts_delta world0
                                   {| deltaX := 0; deltaY := 1; deltaMode := 3 |})))));
      cbn; lia.
Defined.

(** The claim of C4 fails while a resize is active: the move with
    [buttons = 0] returns at once and the drag is still in progress. *)
Lemma onMouseMove_resizing_keeps_drag :
  isDragging (grid dragging_while_resizing) = true
  /\ onMouseMove (host None) (mouse 10 50 0 0 4) dragging_while_resizing
     = Normal tt dragging_while_resizing.
Proof. split; reflexivity. Qed.

Lemma onMouseMove_cancels_drag_witness :
  isDragging (grid dragging) = true
  /\ exists w', onMouseMove (host None) (mouse 10 50 0 0 4) dragging = Normal tt w'
                /\ isDragging (grid w') = false.
Proof.
  split; [reflexivity|].
  apply (proj1 (onMouseMove_cancels_drag (host None) dragging (mouse 10 50 0 0 4)
                  ltac:(cbn; lia))).
  reflexivity.
Defined.

(** A primary-button release over the header whose target is the canvas
    toggles the sort of the column under the pointer. *)
Example header_click_toggles_sort :
  sortToggles (trace (world_of (onMouseUp (host (Some (cell 0 1))) (mouse 10 5 0 0 4) world0)))
  = [1%nat].
Proof. reflexivity. Qed.

Lemma sort_toggle_other_target_witness :
  isOverHeader grid0 (mouse 10 5 0 0 9) = true
  /\ sortToggles (trace (world_of (onMouseUp (host (Some (cell 0 1))) (mouse 10 5 0 0 9) world0)))
     = sortToggles (trace world0).
Proof.
  split; [reflexivity|].
  apply (proj1 (sort_toggle_only_on_header_click (host (Some (cell 0 1))) world0 (mouse 10 5 0 0 9))).
  right; right. cbn. lia.
Defined.

(** The claim of C6 fails when the rendered row index is outside the rows
    collection: row 9 of a grid of four rows gives no message at all. *)
Lemma onMouseDoubleClick_stale_row_throws :
  onMouseDoubleClick (host (Some (cell 9 1))) (mouse 10 50 0 0 4) world0
  = Throw "TypeError" world0.
Proof. reflexivity. Qed.

Lemma onMouseDoubleClick_two_messages_witness :
  onMouseDoubleClick (host (Some (cell 2 1))) (mouse 10 50 0 0 4) world0
  = Normal tt (with_trace [ commSignal_emit (DoubleClickMessage 3 1);
                            commSignal_emit (ActionDetailsMessage "DOUBLE_CLICK" 3 1) ]
                 world0).
Proof.
  destruct (onMouseDoubleClick_emits_two_messages
              (host (Some (cell 2 1))) world0 (mouse 10 50 0 0 4) (cell 2 1)
              eq_refl eq_refl ltac:(discriminate) ltac:(cbn; lia) eq_refl eq_refl)
    as (r & Hr & Hrun).
  injection Hr as <-. exact Hrun.
Defined.

Lemma onMouseDoubleClick_negative_row_witness :
  onMouseDoubleClick (host (Some (cell (-1) 1))) (mouse 10 50 0 0 4) world0
  = Throw "TypeError" world0.
Proof.
  apply (onMouseDoubleClick_row_out_of_range
           (host (Some (cell (-1) 1))) world0 (mouse 10 50 0 0 4) (cell (-1) 1));
    try reflexivity.
  - discriminate.
  - left. cbn. lia.
Defined.

Lemma shift_arrow_down_witness :
  exists w', onKeyDown (host None) {| keyCode := 40; shiftKey := true |} focusing = Normal tt w'
    /\ startCellData (cellSelectionManager (grid w')) = None
    /\ focusedCellData (cellFocusManager (grid w')) = Some (cell 2 1)
    /\ endCellData (cellSelectionManager (grid w')) = Some (cell 2 1).
Proof.
  apply (shift_arrow_sets_end_keeps_anchor
           (host None) focusing {| keyCode := 40; shiftKey := true |} 40 (cell 1 1));
    try reflexivity; cbn; try lia.
  do 3 apply list_elem_of_further. apply list_elem_of_here.
Defined.

(** The claim of C8 fails with shift held and no focused column: shift+3
    sets the precision of all three columns. *)
Lemma shift_digit_without_focus_sets_all :
  columns (grid world0)
  = [ {| precision := Int 4 |}; {| precision := Int 4 |}; {| precision := Int 4 |} ]
  /\ columns (grid (world_of (onKeyDown (host None) {| keyCode := 51; shiftKey := true |} world0)))
     = [ {| precision := Int 3 |}; {| precision := Int 3 |}; {| precision := Int 3 |} ].
Proof. split; reflexivity. Qed.

Lemma digit_key_sets_precision_witness :
  exists w', onKeyDown (host None) {| keyCode := 51; shiftKey := true |} focusing = Normal tt w'
    /\ columns (grid w') !! 1%nat = Some {| precision := Int 3 |}
    /\ columns (grid w') !! 0%nat = Some {| precision := Int 4 |}
    /\ columns (grid w') !! 2%nat = Some {| precision := Int 4 |}.
Proof.
  destruct (digit_key_sets_precision
              (host None) focusing {| keyCode := 51; shiftKey := true |} 3
              eq_refl eq_refl ltac:(lia) eq_refl) as (w' & Hrun & _ & Hshift & _).
  destruct (Hshift 1%nat eq_refl eq_refl) as [Hset Hkeep].
  exists w'. split; [exact Hrun|].
  split; [exact (Hset _ eq_refl)|].
  split; [exact (Hkeep 0%nat ltac:(lia)) | exact (Hkeep 2%nat ltac:(lia))].
Defined.

Lemma onMouseDown_secondary_button_witness :
  onMouseDown (host (Some (cell 1 1))) (mouse 10 50 2 2 4) world0 = Normal tt world0.
Proof.
  apply (onMouseDown_without_primary_button (host (Some (cell 1 1))) world0 (mouse 10 50 2 2 4)).
  cbn. lia.
Defined.

End Runs.

(** Simplification of worlds that keeps handlers and observations folded. *)
Ltac simpl_world :=
  cbn -[windowOpens sortToggles pageScrolls columnToggles messages
        isHeaderClicked isOverHeader isDragging lookupRow
        handleHeaderClick handleBodyClick handleStartDragging onMouseHover
        handleEnterKeyDown handleHighlighterKeyDown handleNumKeyDown
        handleNavigationKeyDown onMouseLeave dispose fire].

Tactic Notation "simpl_world" "in" hyp_list(Hs) :=
  cbn -[windowOpens sortToggles pageScrolls columnToggles messages
        isHeaderClicked isOverHeader isDragging lookupRow
        handleHeaderClick handleBodyClick handleStartDragging onMouseHover
        handleEnterKeyDown handleHighlighterKeyDown handleNumKeyDown
        handleNavigationKeyDown onMouseLeave dispose fire] in Hs.

(** ** Mouse-up: what it completes *)

Section MouseUp.

Variable host : Host.

(** A header click either returns with the grid as it was, or throws when
    no column is found at the clicked cell; it acts only on a header click
    made while no drop target is set. *)
Lemma handleHeaderClick_outcome (ev : MouseEvent) (w : World) :
  (exists w', handleHeaderClick host ev w = Normal tt w'
              /\ grid w' = grid w
              /\ windowOpens (trace w') = windowOpens (trace w)
              /\ (sortToggles (trace w') = sortToggles (trace w)
                  \/ (isHeaderClicked (grid w) ev = true
                      /\ dropCellData (columnPosition (grid w)) = None)))
  \/ (handleHeaderClick host ev w = Throw "TypeError" w
      /\ isHeaderClicked (grid w) ev = true
      /\ dropCellData (columnPosition (grid w)) = None).
Proof.
  unfold handleHeaderClick. run.
  destruct (isHeaderClicked (grid w) ev) eqn:Hc; cbn; [|left; eauto 10].
  destruct (dropCellData (columnPosition (grid w))) eqn:Hd; cbn; [left; eauto 10|].
  destruct (getCellData host (grid w) (clientX ev) (clientY ev)); [|left; eauto 10].
  destruct (getColumnByPosition host (grid w) c); [|right; auto].
  left. eexists. split; [reflexivity|]. cbn.
  split; [reflexivity|]. split; [|auto].
  unfold windowOpens. rewrite omap_app. cbn. now rewrite app_nil_r.
Qed.

(** A body click leaves the grid as it is and opens at most one URL: that
    of the hovered cell, when the release is not over the header, no
    column is dragged and auto-linking is on. *)
Lemma handleBodyClick_outcome (ev : MouseEvent) (w : World) :
  exists w', handleBodyClick host ev w = Normal tt w'
    /\ grid w' = grid w
    /\ sortToggles (trace w') = sortToggles (trace w)
    /\ (windowOpens (trace w') = windowOpens (trace w)
        \/ exists hovered url,
             windowOpens (trace w') = (windowOpens (trace w) ++ [url])%list
             /\ isOverHeader (grid w) ev = false
             /\ isDragging (grid w) = false
             /\ selectAutoLinkTableLinks (store (grid w)) = true
             /\ hoveredCellData (grid w) = Some hovered
             /\ retrieveUrl host (value hovered) = Some url).
Proof.
  unfold handleBodyClick. run.
  destruct (isOverHeader (grid w) ev) eqn:Ho; cbn; [eauto 10|].
  destruct (isDragging (grid w)) eqn:Hd; cbn; [eauto 10|].
  destruct (getCellData host (grid w) (clientX ev) (clientY ev)); [|eauto 10].
  destruct (hoveredCellData (grid w)) as [hovered|] eqn:Hh; [|eauto 10].
  destruct (cellsEqual host c hovered); cbn; [|eauto 10].
  destruct (selectAutoLinkTableLinks (store (grid w))) eqn:Ha; cbn; [|eauto 10].
  destruct (retrieveUrl host (value hovered)) as [url|] eqn:Hu; [|eauto 10].
  eexists. split; [reflexivity|]. cbn. split; [reflexivity|]. split.
  - unfold sortToggles. rewrite omap_app. cbn. now rewrite app_nil_r.
  - right. exists hovered, url. unfold windowOpens. rewrite omap_app. cbn. auto 10.
Qed.

(** X1. A mouse-up that does not end a resize either completes with the
    column drag dropped (no grabbed cell, no drop target), or throws a
    [TypeError] from the header click, when no column is found at the
    clicked header cell; then [dropColumn] is never reached and the drag
    state is what it was. *)
Theorem onMouseUp_drops_drag_or_throws (w : World) (ev : MouseEvent) :
  resizing (dataGridResize (grid w)) = false ->
  match onMouseUp host ev w with
  | Normal _ w' =>
      columnPosition (grid w') = {| grabbedCellData := None; dropCellData := None |}
      /\ resizing (dataGridResize (grid w')) = false
  | Throw e w' =>
      e = "TypeError"
      /\ isHeaderClicked (grid w) ev = true
      /\ dropCellData (columnPosition (grid w)) = None
      /\ columnPosition (grid w') = columnPosition (grid w)
  end.
Proof.
  intros Hr. unfold onMouseUp. run. rewrite Hr.
  cbn -[handleHeaderClick handleBodyClick isHeaderClicked].
  match goal with
  | |- context [handleHeaderClick host ev ?w1] =>
      destruct (handleHeaderClick_outcome ev w1) as [(w2 & -> & Hg2 & _)|(-> & Hc & Hd)]
  end.
  - match goal with
    | |- context [handleBodyClick host ev ?w1] =>
        destruct (handleBodyClick_outcome ev w1) as (w3 & -> & Hg3 & _)
    end.
    cbn. rewrite Hg3, Hg2. cbn. auto.
  - cbn in Hc, Hd |- *. auto.
Qed.

(** X2. A mouse-up opens at most one URL, and only when it does not end a
    resize, is not over the header, no column is being dragged,
    auto-linking is on and a cell is hovered: the URL is the one found in
    the hovered cell's value. *)
Theorem onMouseUp_opens_hovered_link_only (w : World) (ev : MouseEvent) :
  let w' := world_of (onMouseUp host ev w) in
  windowOpens (trace w') = windowOpens (trace w)
  \/ exists hovered url,
       windowOpens (trace w') = (windowOpens (trace w) ++ [url])%list
       /\ resizing (dataGridResize (grid w)) = false
       /\ isOverHeader (grid w) ev = false
       /\ isDragging (grid w) = false
       /\ selectAutoLinkTableLinks (store (grid w)) = true
       /\ hoveredCellData (grid w) = Some hovered
       /\ retrieveUrl host (value hovered) = Some url.
Proof.
  cbv zeta. unfold onMouseUp. run.
  destruct (resizing (dataGridResize (grid w))) eqn:Hr; [left; reflexivity|].
  cbn -[handleHeaderClick handleBodyClick isHeaderClicked].
  match goal with
  | |- context [handleHeaderClick host ev ?w1] =>
      destruct (handleHeaderClick_outcome ev w1) as [(w2 & -> & Hg2 & Ht2 & _)|(-> & _)]
  end; [|left; reflexivity].
  match goal with
  | |- context [handleBodyClick host ev ?w1] =>
      destruct (handleBodyClick_outcome ev w1)
        as (w3 & -> & Hg3 & _ & [Ht3|(hovered & url & Ht3 & Ho & Hd & Ha & Hh & Hu)])
  end; simpl_world; rewrite Ht3, Ht2; simpl_world; [left; reflexivity|].
  right. exists hovered, url. rewrite Hg2 in Ho, Hd, Ha, Hh.
  simpl_world in Ho Hd Ha Hh. auto 10.
Qed.


End MouseUp.

(** ** Mouse-down, mouse-move and mouse-leave *)

Section Gestures.

Variable host : Host.

(** Starting a drag writes the column-position controller only, and only
    on a header click away from the resize band and off the corner
    header's first column. *)
Lemma handleStartDragging_outcome (ev : MouseEvent) (w : World) :
  exists w', handleStartDragging host ev w = Normal tt w'
    /\ trace w' = trace w
    /\ focused (grid w') = focused (grid w)
    /\ dataGridResize (grid w') = dataGridResize (grid w)
    /\ cellSelectionManager (grid w') = cellSelectionManager (grid w)
    /\ (columnPosition (grid w') = columnPosition (grid w)
        \/ exists data,
             columnPosition (grid w')
             = {| grabbedCellData := Some data;
                  dropCellData := dropCellData (columnPosition (grid w)) |}
             /\ isHeaderClicked (grid w) ev = true
             /\ (is_corner_header (region data) && (column data =? 0)) = false
             /\ (width data - delta data <? COLUMN_RESIZE_AREA_WIDTH)%float = false).
Proof.
  unfold handleStartDragging. run.
  destruct (getCellData host (grid w) (clientX ev) (clientY ev)) as [data|]; [|eauto 10].
  destruct (isHeaderClicked (grid w) ev) eqn:Hc; cbn; [|eauto 10].
  destruct (is_corner_header (region data) && (column data =? 0)) eqn:Hk; cbn; [eauto 10|].
  destruct (width data - delta data <? COLUMN_RESIZE_AREA_WIDTH)%float eqn:Hb; [eauto 10|].
  eexists. split; [reflexivity|]. cbn. do 4 (split; [reflexivity|]).
  right. exists data. auto.
Qed.

Lemma isHeaderClicked_with_focused (b : bool) (g : Grid) (ev : MouseEvent) :
  isHeaderClicked (with_focused b g) ev = isHeaderClicked g ev.
Proof. reflexivity. Qed.

(** X4. A primary-button press never throws and always leaves the grid
    focused. It starts a resize only off a header click, and then touches
    neither the selection nor the column drag; otherwise the resize state
    is kept, and a column drag starts only on a header click on the
    canvas, never on the corner header's first column and never within
    [COLUMN_RESIZE_AREA_WIDTH] pixels of the boundary. *)
Theorem onMouseDown_primary_button (w : World) (ev : MouseEvent) :
  buttons ev = 1 ->
  exists w', onMouseDown host ev w = Normal tt w'
    /\ focused (grid w') = true
    /\ trace w' = trace w
    /\ ((isHeaderClicked (grid w) ev = false
         /\ resizing (dataGridResize (grid w')) = true
         /\ columnPosition (grid w') = columnPosition (grid w)
         /\ cellSelectionManager (grid w') = cellSelectionManager (grid w))
        \/ (dataGridResize (grid w') = dataGridResize (grid w)
            /\ (columnPosition (grid w') = columnPosition (grid w)
                \/ exists data,
                     columnPosition (grid w')
                     = {| grabbedCellData := Some data;
                          dropCellData := dropCellData (columnPosition (grid w)) |}
                     /\ isHeaderClicked (grid w) ev = true
                     /\ (is_corner_header (region data) && (column data =? 0)) = false
                     /\ (width data - delta data <? COLUMN_RESIZE_AREA_WIDTH)%float = false))).
Proof.
  intros Hb. unfold onMouseDown. rewrite Hb. run. simpl_world.
  destruct (focused (grid w)) eqn:Hf; simpl_world.
  all: rewrite ?isHeaderClicked_with_focused.
  all: destruct (isHeaderClicked (grid w) ev) eqn:Hc; simpl_world.
  all: try match goal with
           | |- context [if shouldResizeDataGrid ?h ?g ?e then _ else _] =>
               destruct (shouldResizeDataGrid h g e);
                 [eexists; split; [reflexivity|]; simpl_world;
                  split; [assumption || reflexivity|];
                  split; [reflexivity|]; left; auto|]
           end.
  all: match goal with
       | |- context [if isOutsideViewport ?h ?g ?e then _ else _] =>
           destruct (isOutsideViewport h g e);
             [eexists; split; [reflexivity|]; simpl_world;
              split; [assumption || reflexivity|];
              split; [reflexivity|]; right; auto|]
       end.
  all: match goal with
       | |- context [handleStartDragging _ ?e ?w1] =>
           destruct (handleStartDragging_outcome e w1)
             as (w' & -> & Ht & Hfo & Hr & Hs & Hcp)
       end.
  all: exists w'; split; [reflexivity|]; simpl_world in Ht Hfo Hr Hs Hcp.
  all: split; [congruence|]; split; [exact Ht|]; right; split; [exact Hr|].
  all: destruct Hcp as [Hcp|(data & Hcp & Hk & Hcorner & Hband)]; [left; exact Hcp|].
  all: assert (Hk' : isHeaderClicked (grid w) ev = true) by exact Hk.
  all: right; exists data; repeat split; congruence.
Qed.

(** The hover step emits at most one notification, always for a cell, and
    writes neither the column-position nor the resize controller. *)
Lemma onMouseHover_outcome (ev : MouseEvent) (w : World) :
  exists w', onMouseHover host ev w = Normal tt w'
    /\ columnPosition (grid w') = columnPosition (grid w)
    /\ dataGridResize (grid w') = dataGridResize (grid w)
    /\ (trace w' = trace w
        \/ exists data, trace w' = (trace w ++ [cellHovered_emit (Some data)])%list).
Proof.
  unfold onMouseHover. run.
  destruct (getCellData host (grid w) (clientX ev) (clientY ev)) as [data|]; eauto 10.
Qed.

(** X5. While the primary button is held, a mouse-move never cancels or
    replaces the drag: the grabbed header cell is the one it was. *)
Theorem onMouseMove_primary_held_keeps_drag (w : World) (ev : MouseEvent) :
  buttons ev = 1 ->
  exists w', onMouseMove host ev w = Normal tt w'
    /\ grabbedCellData (columnPosition (grid w'))
       = grabbedCellData (columnPosition (grid w)).
Proof.
  intros Hb. unfold onMouseMove. rewrite Hb. run.
  destruct (resizing (dataGridResize (grid w))) eqn:Hr; [eauto|].
  simpl_world. rewrite Hr. simpl_world.
  match goal with
  | |- context [if ?c then _ else _] => destruct c
  end; [eauto|].
  match goal with
  | |- context [onMouseHover host ev ?w1] =>
      destruct (onMouseHover_outcome ev w1) as (w' & -> & Hcp & _)
  end.
  exists w'. split; [reflexivity|]. rewrite Hcp. simpl_world.
  now destruct (isDragging _).
Qed.

(** X6. A mouse-move never throws and notifies at most one hover, always
    for a cell and never the null hover; it notifies none while a resize
    is active at entry or the pointer is outside the viewport. *)
Theorem onMouseMove_hovers_at_most_once (w : World) (ev : MouseEvent) :
  exists w', onMouseMove host ev w = Normal tt w'
    /\ (trace w' = trace w
        \/ exists data,
             trace w' = (trace w ++ [cellHovered_emit (Some data)])%list
             /\ resizing (dataGridResize (grid w)) = false
             /\ isOutsideViewport host (grid w) ev = false).
Proof.
  unfold onMouseMove. run.
  destruct (resizing (dataGridResize (grid w))) eqn:Hr; [eauto|].
  destruct (negb (buttons ev =? 1)); simpl_world; rewrite ?Hr; simpl_world.
  all: match goal with
       | |- context [if ?r || isOutsideViewport ?h ?g ?e then _ else _] =>
           destruct r; simpl_world; [eauto|];
           destruct (isOutsideViewport h g e) eqn:Ho; [eauto|]
       end.
  all: match goal with
       | |- context [onMouseHover _ ?e ?w1] =>
           destruct (onMouseHover_outcome e w1) as (w' & -> & _ & _ & [Ht|(data & Ht)])
       end.
  all: exists w'; split; [reflexivity|]; simpl_world in Ht; eauto 10.
Qed.

(** X7. [onMouseLeave] by cases. With the pointer still inside the grid
    or a button held it does nothing, whatever the manager's state. Else,
    with the hover control in place, it hides the tooltips, notifies the
    null hover, sets the cursor to [auto], cancels the column drag and
    removes the grid's focus, keeping the resize gesture and the
    selection. Else, the hover control being null, reading its [timerId]
    throws before anything is done. *)
Theorem onMouseLeave_by_cases (w : World) (ev : MouseEvent) :
  (isNodeInsideGrid host (grid w) ev = true \/ buttons ev <> 0 ->
   onMouseLeave host ev w = Normal tt w)
  /\ (isNodeInsideGrid host (grid w) ev = false -> buttons ev = 0 ->
      match cellHoverControl w with
      | Some _ =>
          exists w', onMouseLeave host ev w = Normal tt w'
            /\ trace w' = (trace w ++ [hideTooltips; cellHovered_emit None])%list
            /\ dataGridResize (grid w')
               = {| resizing := resizing (dataGridResize (grid w)); cursor := "auto" |}
            /\ columnPosition (grid w')
               = {| grabbedCellData := None; dropCellData := None |}
            /\ focused (grid w') = false
            /\ cellSelectionManager (grid w') = cellSelectionManager (grid w)
      | None => onMouseLeave host ev w = Throw "TypeError" w
      end).
Proof.
  split.
  - intros Hor. unfold onMouseLeave. run.
    destruct (isNodeInsideGrid host (grid w) ev); [reflexivity|].
    destruct Hor as [Hin|Hb]; [discriminate|].
    destruct (Z.eqb_spec (buttons ev) 0); [contradiction|]. reflexivity.
  - intros Hin Hb. unfold onMouseLeave. run. rewrite Hin, Hb. cbn.
    destruct (cellHoverControl w) as [c|]; [|reflexivity].
    eexists. split; [reflexivity|].
    destruct (timerId c); cbn; rewrite <- ?app_assoc; auto 10.
Qed.

End Gestures.

(** ** Disposal: what it leaves behind *)

Section AfterDisposal.

Variable host : Host.

(** A timer queued under a fresh id is the one found under that id, and
    clearing it gives back the timers that were pending before. *)
Lemma list_find_fresh_timer (n : nat) (x : Task) (ts : list (nat * Task)) :
  (forall t, (n, t) ∉ ts) ->
  list_find (fun t => t.1 = n) (ts ++ [(n, x)])%list = Some (length ts, (n, x)).
Proof.
  induction ts as [|[m t] ts IH]; intros Hfresh; cbn.
  - now rewrite decide_True.
  - rewrite decide_False.
    + rewrite IH; [reflexivity|].
      intros t' Hin. apply (Hfresh t'). now apply list_elem_of_further.
    + cbn. intros ->. apply (Hfresh t). apply list_elem_of_here.
Qed.

Lemma filter_fresh_timer (n : nat) (x : Task) (ts : list (nat * Task)) :
  (forall t, (n, t) ∉ ts) ->
  filter (fun t => t.1 <> n) (ts ++ [(n, x)])%list = ts.
Proof.
  intros Hfresh. rewrite filter_app, filter_cons_False by (cbn; auto).
  rewrite filter_nil, app_nil_r.
  induction ts as [|[m t] ts IH]; [reflexivity|].
  rewrite filter_cons_True.
  - rewrite IH; [reflexivity|].
    intros t' Hin. apply (Hfresh t'). now apply list_elem_of_further.
  - cbn. intros ->. apply (Hfresh t). apply list_elem_of_here.
Qed.

(** X8. The first [dispose] removes from the grid node exactly the
    listeners [(mousemove, handleMouseMove)] and [(mousemove,
    handleMouseLeave)], and from the table-display element exactly
    [(mousedown, handleMouseDown)]: every other listener, whoever
    registered it, stays. It emits nothing, keeps [cellHoverControl] for
    now, and writes no controller. *)
Theorem dispose_removes_only_these_listeners (w : World) :
  _disposed w = false ->
  exists w', dispose w = Normal tt w'
    /\ _disposed w' = true
    /\ trace w' = trace w
    /\ cellHoverControl w' = cellHoverControl w
    /\ (forall l, l ∈ listeners (node (grid w')) <->
                  l ∈ listeners (node (grid w))
                  /\ l <> ("mousemove", handleMouseMove)
                  /\ l <> ("mousemove", handleMouseLeave))
    /\ (forall l, l ∈ listeners (tableDisplayView_el (grid w')) <->
                  l ∈ listeners (tableDisplayView_el (grid w))
                  /\ l <> ("mousedown", handleMouseDown))
    /\ dataGridResize (grid w') = dataGridResize (grid w)
    /\ columnPosition (grid w') = columnPosition (grid w)
    /\ cellSelectionManager (grid w') = cellSelectionManager (grid w)
    /\ cellFocusManager (grid w') = cellFocusManager (grid w).
Proof.
  intros Hd. eexists. split; [apply dispose_first; exact Hd|].
  cbn -[removeEventListener]. do 3 (split; [reflexivity|]).
  split; [|split; [|auto]].
  - intros l. rewrite !elem_of_removeEventListener. tauto.
  - intros l. now rewrite elem_of_removeEventListener.
Qed.

(** X9. A disposed manager still answers [mouseout]. After the first
    [dispose] and the deferred task it queued, [cellHoverControl] is null
    while the [mouseout] listener registered at construction is still on
    the grid node and the timers that were pending are still pending; a
    mouse-out with the pointer outside the grid and no button held then
    throws a [TypeError] and does nothing else. *)
Theorem mouseout_after_disposal_throws (w : World) :
  _disposed w = false ->
  (forall t, (nextTimer w, t) ∉ timers w) ->
  ("mouseout", handleMouseLeave) ∈ listeners (node (grid w)) ->
  exists w1, (dispose ;; fire (nextTimer w)) w = Normal tt w1
    /\ cellHoverControl w1 = None
    /\ timers w1 = timers w
    /\ (("mouseout", handleMouseLeave) ∈ listeners (node (grid w1)))
    /\ forall ev, isNodeInsideGrid host (grid w1) ev = false -> buttons ev = 0 ->
                  onMouseLeave host ev w1 = Throw "TypeError" w1.
Proof.
  intros Hd Hfresh Hout.
  unfold bind at 1. rewrite (dispose_first w Hd).
  unfold fire. run. cbn -[removeEventListener list_find filter].
  rewrite list_find_fresh_timer by exact Hfresh.
  cbn -[removeEventListener filter].
  eexists. split; [reflexivity|]. cbn -[removeEventListener filter].
  split; [reflexivity|]. split; [now apply filter_fresh_timer|]. split.
  - rewrite !elem_of_removeEventListener. repeat split; [exact Hout| |]; discriminate.
  - intros ev Hin Hb. unfold onMouseLeave. run.
    cbn -[removeEventListener filter] in Hin |- *. rewrite Hin, Hb. reflexivity.
Qed.

End AfterDisposal.

(** ** Double-click: every combination *)

Section DoubleClick.

Variable host : Host.

(** X10. A double-click is ignored, with the world untouched and no row
    looked up, over the header, where there is no cell, and on a cell of
    the index column; so a stale row index cannot make these throw. *)
Theorem onMouseDoubleClick_ignored (w : World) (ev : MouseEvent) :
  isOverHeader (grid w) ev = true
  \/ getCellData host (grid w) (clientX ev) (clientY ev) = None
  \/ (exists data, getCellData host (grid w) (clientX ev) (clientY ev) = Some data
                   /\ type data = COLUMN_TYPES.index) ->
  onMouseDoubleClick host ev w = Normal tt w.
Proof.
  intros Hcases. unfold onMouseDoubleClick. run.
  destruct (isOverHeader (grid w) ev); [reflexivity|].
  destruct Hcases as [Ho|[Hn|(data & Hd & Ht)]]; [discriminate| |].
  - now rewrite Hn.
  - rewrite Hd. cbn. now rewrite Ht.
Qed.

(** X11. Over a body cell whose row is within the rows collection, a
    double-click sends the double-click message if and only if the
    double-click action is on, then the DOUBLE_CLICK action-detail message
    if and only if the double-click tag is on, both with the row's logical
    index and the cell's column; it writes nothing in the grid. *)
Theorem onMouseDoubleClick_messages_follow_flags
    (w : World) (ev : MouseEvent) (data : CellData) (r : Row) :
  isOverHeader (grid w) ev = false ->
  getCellData host (grid w) (clientX ev) (clientY ev) = Some data ->
  type data <> COLUMN_TYPES.index ->
  lookupRow (grid w) (row data) = Some r ->
  exists w', onMouseDoubleClick host ev w = Normal tt w'
    /\ grid w' = grid w
    /\ trace w' =
       (trace w
        ++ (if selectHasDoubleClickAction (store (grid w))
            then [commSignal_emit (DoubleClickMessage (index r) (column data))]
            else [])
        ++ (if selectDoubleClickTag (store (grid w))
            then [commSignal_emit
                    (ActionDetailsMessage "DOUBLE_CLICK" (index r) (column data))]
            else []))%list.
Proof.
  intros Ho Hd Ht Hr.
  unfold onMouseDoubleClick, getRowIndex. run.
  rewrite Ho, Hd. cbn -[lookupRow].
  destruct (type data); [contradiction|]. cbn -[lookupRow].
  rewrite Hr. cbn.
  destruct (selectHasDoubleClickAction (store (grid w))); cbn;
    destruct (selectDoubleClickTag (store (grid w))); cbn;
    eexists; (split; [reflexivity|]); cbn;
    rewrite <- ?app_assoc, ?app_nil_r; auto.
Qed.

End DoubleClick.

(** ** Keys: what each one reaches *)

Section Keys.

Variable host : Host.

Local Abbreviation K := (keys host).

Lemma handleEnterKeyDown_frame (code : Z) (shift : bool) (c : option CellData) (w : World) :
  exists w', handleEnterKeyDown host code shift c w = Normal tt w'
    /\ trace w' = trace w
    /\ columns (grid w') = columns (grid w)
    /\ cellFocusManager (grid w') = cellFocusManager (grid w).
Proof.
  unfold handleEnterKeyDown. run. destruct c; [|eauto].
  destruct (negb (code =? Enter K)); [eauto|].
  destruct (negb shift || _); eexists; (split; [reflexivity|]); auto.
Qed.

(** The highlighter keys toggle on the focused column and nowhere else. *)
Lemma handleHighlighterKeyDown_trace (code : Z) (c : option ColumnRef) (w : World) :
  exists w', handleHighlighterKeyDown host code c w = Normal tt w'
    /\ grid w' = grid w
    /\ trace w' =
       (trace w ++
        match c with
        | None => []
        | Some c =>
            if code =? KeyH K then [toggleHighlighter c HIGHLIGHTER_TYPE.heatmap]
            else if code =? KeyU K then [toggleHighlighter c HIGHLIGHTER_TYPE.uniqueEntries]
            else if code =? KeyB K then [toggleDataBarsRenderer c]
            else []
        end)%list.
Proof.
  unfold handleHighlighterKeyDown. run.
  destruct c as [c|]; destruct (code =? KeyH K); [| | |];
    try destruct (code =? KeyU K); try destruct (code =? KeyB K);
    eexists; (split; [reflexivity|]); cbn; rewrite ?app_nil_r; auto.
Qed.

Lemma handleNumKeyDown_frame (code : Z) (shift : bool) (c : option ColumnRef) (w : World) :
  exists w', handleNumKeyDown host code shift c w = Normal tt w'
    /\ trace w' = trace w
    /\ cellSelectionManager (grid w') = cellSelectionManager (grid w)
    /\ cellFocusManager (grid w') = cellFocusManager (grid w).
Proof.
  unfold handleNumKeyDown. run.
  destruct (_ || _); [eauto|].
  destruct shift, c; eexists; (split; [reflexivity|]); auto.
Qed.

(** The navigation keys scroll by page only when nothing is focused, and
    then leave the focus alone. *)
Lemma handleNavigationKeyDown_trace (code : Z) (ev : KeyboardEvent) (w : World) :
  exists w', handleNavigationKeyDown host code ev w = Normal tt w'
    /\ columns (grid w') = columns (grid w)
    /\ startCellData (cellSelectionManager (grid w'))
       = startCellData (cellSelectionManager (grid w))
    /\ trace w' =
       (trace w ++
        match focusedCellData (cellFocusManager (grid w)) with
        | Some _ => []
        | None =>
            if code =? PageUp K then [scrollByPage "up"]
            else if code =? PageDown K then [scrollByPage "down"]
            else []
        end)%list
    /\ (focusedCellData (cellFocusManager (grid w)) = None ->
        focusedCellData (cellFocusManager (grid w')) = None
        /\ (code ∈ navigationKeyCodes host -> shiftKey ev = true ->
            endCellData (cellSelectionManager (grid w')) = None)).
Proof.
  unfold handleNavigationKeyDown. run.
  destruct (Z.eqb_spec (-1) (indexOf (navigationKeyCodes host) code)) as [Hno|Hin].
  - assert (Hnot : code ∉ navigationKeyCodes host).
    { intros Hmem. apply indexOf_elem_of in Hmem. lia. }
    unfold navigationKeyCodes in Hnot. rewrite !not_elem_of_cons in Hnot.
    destruct Hnot as (_ & _ & _ & _ & Hu & Hd & _).
    destruct (Z.eqb_spec code (PageUp K)); [congruence|].
    destruct (Z.eqb_spec code (PageDown K)); [congruence|].
    eexists. split; [reflexivity|].
    destruct (focusedCellData _); rewrite app_nil_r; repeat split; auto;
      try discriminate; intros Hmem; apply indexOf_elem_of in Hmem; lia.
  - destruct (focusedCellData (cellFocusManager (grid w))) as [c0|] eqn:Hf; cbn.
    + destruct (shiftKey ev); eexists; (split; [reflexivity|]); cbn;
        rewrite app_nil_r; repeat split; auto; discriminate.
    + destruct (Z.eqb_spec code (PageUp K)) as [Hu|Hnu]; cbn.
      * rewrite orb_true_r. cbn.
        destruct (shiftKey ev) eqn:Hs; eexists; (split; [reflexivity|]); cbn;
          rewrite ?Hf; repeat split; auto; discriminate.
      * destruct (Z.eqb_spec code (PageDown K)) as [Hd|Hnd]; cbn.
        -- destruct (shiftKey ev) eqn:Hs; eexists; (split; [reflexivity|]); cbn;
             rewrite ?Hf; repeat split; auto; discriminate.
        -- destruct (shiftKey ev) eqn:Hs; eexists; (split; [reflexivity|]); cbn;
             rewrite ?Hf, ?app_nil_r; repeat split; auto; discriminate.
Qed.

(** The trace of a recognised key: the event is consumed, then the
    highlighter toggle of the focused column, then the page scroll. *)
Lemma onKeyDown_trace (w : World) (ev : KeyboardEvent) :
  getEventKeyCode host ev <> 0 ->
  let code := getEventKeyCode host ev in
  let focusedCell := focusedCellData (cellFocusManager (grid w)) in
  let column := match focusedCell with
                | Some c => takeColumnByCell host (grid w) c
                | None => None
                end in
  exists w', onKeyDown host ev w = Normal tt w'
    /\ trace w' =
       (trace w ++ [stopPropagation; preventDefault]
        ++ match column with
           | None => []
           | Some c =>
               if code =? KeyH K then [toggleHighlighter c HIGHLIGHTER_TYPE.heatmap]
               else if code =? KeyU K then [toggleHighlighter c HIGHLIGHTER_TYPE.uniqueEntries]
               else if code =? KeyB K then [toggleDataBarsRenderer c]
               else []
           end
        ++ match focusedCell with
           | Some _ => []
           | None =>
               if code =? PageUp K then [scrollByPage "up"]
               else if code =? PageDown K then [scrollByPage "down"]
               else []
           end)%list.
Proof.
  intros Hnz code focusedCell column.
  unfold onKeyDown. fold code.
  cbv beta iota zeta delta [bind ret gets modify query emit].
  fold focusedCell. fold column.
  destruct (Z.eqb_spec code 0); [contradiction|].
  match goal with
  | |- context [handleEnterKeyDown host ?a ?b ?c ?w1] =>
      destruct (handleEnterKeyDown_frame a b c w1) as (w1' & -> & Ht1 & _ & Hf1)
  end.
  match goal with
  | |- context [handleHighlighterKeyDown host ?a ?c ?w1] =>
      destruct (handleHighlighterKeyDown_trace a c w1) as (w2 & -> & Hg2 & Ht2)
  end.
  match goal with
  | |- context [handleNumKeyDown host ?a ?b ?c ?w1] =>
      destruct (handleNumKeyDown_frame a b c w1) as (w3 & -> & Ht3 & _ & Hf3)
  end.
  match goal with
  | |- context [handleNavigationKeyDown host ?a ?b ?w1] =>
      destruct (handleNavigationKeyDown_trace a b w1) as (w' & -> & _ & _ & Ht4 & _)
  end.
  exists w'. split; [reflexivity|].
  rewrite Ht4, Ht3, Ht2, Ht1, Hf3, Hg2, Hf1. cbn.
  fold focusedCell. now rewrite <- !app_assoc.
Qed.

End Keys.

Section KeyDown.

Variable host : Host.

Local Abbreviation K := (keys host).

(** X12. A key whose code is not recognised is left alone: nothing runs
    and the event is neither stopped nor default-prevented. A recognised
    key is always consumed, exactly once and before anything else, whether
    or not a handler acts on it. *)
Theorem onKeyDown_consumes_recognised_keys (w : World) (ev : KeyboardEvent) :
  (getEventKeyCode host ev = 0 -> onKeyDown host ev w = Normal tt w)
  /\ (getEventKeyCode host ev <> 0 ->
      exists w' rest,
        onKeyDown host ev w = Normal tt w'
        /\ trace w' = (trace w ++ stopPropagation :: preventDefault :: rest)%list
        /\ (stopPropagation ∉ rest) /\ (preventDefault ∉ rest)).
Proof.
  split.
  - intros Hz. unfold onKeyDown. rewrite Hz.
    cbv beta iota zeta delta [bind ret gets modify query emit]. reflexivity.
  - intros Hnz. destruct (onKeyDown_trace host w ev Hnz) as (w' & Hrun & Ht).
    cbv zeta in Ht. eexists _, _. split; [exact Hrun|]. split; [exact Ht|].
    split; intros Hin; apply elem_of_app in Hin as [Hin|Hin];
      repeat match type of Hin with
             | context [match ?c with Some _ => _ | None => _ end] => destruct c
             | context [if ?c then _ else _] => destruct c
             end;
      repeat (apply elem_of_cons in Hin as [Hin|Hin]; [discriminate|]);
      now apply elem_of_nil in Hin.
Qed.

(** X13. No key other than a digit changes a column's precision: for a
    code outside [Digit0 .. Digit9], the columns after the key-down are
    the columns before it. *)
Theorem non_digit_key_keeps_precision (w : World) (ev : KeyboardEvent) :
  getEventKeyCode host ev < Digit0 K \/ Digit9 K < getEventKeyCode host ev ->
  exists w', onKeyDown host ev w = Normal tt w'
    /\ columns (grid w') = columns (grid w).
Proof.
  intros Hout. unfold onKeyDown.
  cbv beta iota zeta delta [bind ret gets modify query emit].
  destruct (getEventKeyCode host ev =? 0); [eauto|].
  match goal with
  | |- context [handleEnterKeyDown host ?a ?b ?c ?w1] =>
      destruct (handleEnterKeyDown_columns host a b c w1) as (w1' & -> & Hc1)
  end.
  match goal with
  | |- context [handleHighlighterKeyDown host ?a ?c ?w1] =>
      destruct (handleHighlighterKeyDown_grid host a c w1) as (w2 & -> & Hg2)
  end.
  rewrite handleNumKeyDown_other by exact Hout.
  match goal with
  | |- context [handleNavigationKeyDown host ?a ?b ?w1] =>
      destruct (handleNavigationKeyDown_columns host a b w1) as (w' & -> & Hc3)
  end.
  exists w'. split; [reflexivity|]. now rewrite Hc3, Hg2, Hc1.
Qed.

(** X14. Page keys scroll the viewport by a page only while no cell is
    focused: PageUp scrolls up, PageDown down, once; with a focused cell,
    or for any other recognised key, nothing is scrolled by page. *)
Theorem page_keys_scroll_only_without_focus (w : World) (ev : KeyboardEvent) :
  getEventKeyCode host ev <> 0 ->
  exists w', onKeyDown host ev w = Normal tt w'
    /\ pageScrolls (trace w') =
       (pageScrolls (trace w) ++
        match focusedCellData (cellFocusManager (grid w)) with
        | Some _ => []
        | None =>
            if getEventKeyCode host ev =? PageUp K then ["up"]
            else if getEventKeyCode host ev =? PageDown K then ["down"]
            else []
        end)%list.
Proof.
  intros Hnz. destruct (onKeyDown_trace host w ev Hnz) as (w' & Hrun & Ht).
  cbv zeta in Ht. exists w'. split; [exact Hrun|]. rewrite Ht.
  unfold pageScrolls. rewrite !omap_app. f_equal.
  destruct (focusedCellData (cellFocusManager (grid w))) as [cell|];
    [destruct (takeColumnByCell host (grid w) cell)|];
    repeat match goal with
           | |- context [if ?c then _ else _] => destruct c
           end; reflexivity.
Qed.

(** X15. The highlighter keys act on the focused column and on nothing
    else: a recognised key toggles the heat map (H), the unique-entries
    highlighter (U) or the data bars (B) of the focused cell's column, in
    that order of precedence; with no focused column, and for every other
    key, no highlighter or renderer is toggled. *)
Theorem highlighter_keys_toggle_focused_column_only (w : World) (ev : KeyboardEvent) :
  getEventKeyCode host ev <> 0 ->
  exists w', onKeyDown host ev w = Normal tt w'
    /\ columnToggles (trace w') =
       (columnToggles (trace w) ++
        match focusedCellData (cellFocusManager (grid w)) with
        | None => []
        | Some cell =>
            match takeColumnByCell host (grid w) cell with
            | None => []
            | Some c =>
                if getEventKeyCode host ev =? KeyH K
                then [toggleHighlighter c HIGHLIGHTER_TYPE.heatmap]
                else if getEventKeyCode host ev =? KeyU K
                then [toggleHighlighter c HIGHLIGHTER_TYPE.uniqueEntries]
                else if getEventKeyCode host ev =? KeyB K
                then [toggleDataBarsRenderer c]
                else []
            end
        end)%list.
Proof.
  intros Hnz. destruct (onKeyDown_trace host w ev Hnz) as (w' & Hrun & Ht).
  cbv zeta in Ht. exists w'. split; [exact Hrun|]. rewrite Ht.
  unfold columnToggles. rewrite !omap_app. f_equal.
  destruct (focusedCellData (cellFocusManager (grid w))) as [cell|];
    [destruct (takeColumnByCell host (grid w) cell)|];
    repeat match goal with
           | |- context [if ?c then _ else _] => destruct c
           end; reflexivity.
Qed.

(** X16. A navigation key with shift held while no cell is focused sets
    the selection's end to null: [setEndCell] is called with the (absent)
    focused cell. The anchor is kept and nothing gets the focus. *)
Theorem shift_navigation_without_focus_clears_end (w : World) (ev : KeyboardEvent) :
  focusedCellData (cellFocusManager (grid w)) = None ->
  getEventKeyCode host ev ∈ navigationKeyCodes host ->
  getEventKeyCode host ev <> 0 ->
  shiftKey ev = true ->
  exists w', onKeyDown host ev w = Normal tt w'
    /\ endCellData (cellSelectionManager (grid w')) = None
    /\ startCellData (cellSelectionManager (grid w'))
       = startCellData (cellSelectionManager (grid w))
    /\ focusedCellData (cellFocusManager (grid w')) = None.
Proof.
  intros Hf Hnav Hnz Hs. unfold onKeyDown.
  cbv beta iota zeta delta [bind ret gets modify query emit].
  rewrite Hf.
  destruct (Z.eqb_spec (getEventKeyCode host ev) 0); [contradiction|].
  change (handleEnterKeyDown host ?a ?b None ?w1) with (@Normal unit tt w1).
  cbv beta iota.
  match goal with
  | |- context [handleHighlighterKeyDown host ?a ?c ?w1] =>
      destruct (handleHighlighterKeyDown_grid host a c w1) as (w2 & -> & Hg2)
  end.
  match goal with
  | |- context [handleNumKeyDown host ?a ?b ?c ?w1] =>
      destruct (handleNumKeyDown_frame host a b c w1) as (w3 & -> & _ & Hs3 & Hf3)
  end.
  match goal with
  | |- context [handleNavigationKeyDown host ?a ?b ?w1] =>
      destruct (handleNavigationKeyDown_trace host a b w1) as (w' & -> & _ & Ha & _ & Hnone)
  end.
  rewrite Hg2 in Hs3, Hf3. cbn in Hs3, Hf3.
  destruct Hnone as [Hf' Hend]; [now rewrite Hf3|].
  exists w'. split; [reflexivity|]. rewrite Ha, Hs3. auto.
Qed.

End KeyDown.

(** ** A whole resize gesture *)

Section ResizeGesture.

Variable host : Host.

Lemma onMouseMove_while_resizing (ev : MouseEvent) (w : World) :
  resizing (dataGridResize (grid w)) = true ->
  onMouseMove host ev w = Normal tt w.
Proof. intros Hr. unfold onMouseMove. run. now rewrite Hr. Qed.

(** X17. Press, move, release at a resize boundary. A primary-button
    press that is not a header click, where the resize controller asks
    for a resize, followed by any mouse-move and any mouse-up, ends with
    no resize active and the grid focused; in between, the move was
    ignored and the release only ended the resize: nothing was emitted,
    and the column drag and the selection are what they were. *)
Theorem resize_gesture_touches_nothing_else
    (w : World) (down move up : MouseEvent) :
  buttons down = 1 ->
  isHeaderClicked (grid w) down = false ->
  shouldResizeDataGrid host (grid w) down = true ->
  shouldResizeDataGrid host (with_focused true (grid w)) down = true ->
  exists w',
    (onMouseDown host down ;; onMouseMove host move ;; onMouseUp host up) w
    = Normal tt w'
    /\ resizing (dataGridResize (grid w')) = false
    /\ cursor (dataGridResize (grid w')) = cursor (dataGridResize (grid w))
    /\ focused (grid w') = true
    /\ trace w' = trace w
    /\ columnPosition (grid w') = columnPosition (grid w)
    /\ cellSelectionManager (grid w') = cellSelectionManager (grid w).
Proof.
  intros Hb Hc Hs Hsf.
  assert (Hdown : exists w1, onMouseDown host down w = Normal tt w1
            /\ resizing (dataGridResize (grid w1)) = true
            /\ cursor (dataGridResize (grid w1)) = cursor (dataGridResize (grid w))
            /\ focused (grid w1) = true
            /\ trace w1 = trace w
            /\ columnPosition (grid w1) = columnPosition (grid w)
            /\ cellSelectionManager (grid w1) = cellSelectionManager (grid w)).
  { unfold onMouseDown. rewrite Hb. run. simpl_world.
    destruct (focused (grid w)) eqn:Hf; simpl_world;
      rewrite ?isHeaderClicked_with_focused, Hc, ?Hs, ?Hsf; simpl_world;
      eexists; (split; [reflexivity|]); simpl_world; auto 10. }
  destruct Hdown as (w1 & Hrun1 & Hr1 & Hcur1 & Hf1 & Ht1 & Hcp1 & Hsel1).
  unfold bind at 1. rewrite Hrun1.
  unfold bind at 1. rewrite (onMouseMove_while_resizing move w1 Hr1).
  unfold onMouseUp. run. rewrite Hr1.
  eexists. split; [reflexivity|]. simpl_world. auto 10.
Qed.

End ResizeGesture.

(** ** The header context menu's items *)

Section HeaderMenuItems.

Import HeaderMenu.

Lemma visible_overHeaderCell (g : DataGrid) (m : DataGridContextMenu) (b : bool) :
  visible g m b = overHeaderCell g m && b.
Proof.
  unfold visible, overHeaderCell.
  destruct (getCellData g _ _) as [data|]; [|reflexivity].
  now destruct (headerHeight g <=? offsetTop data)%float.
Qed.

(** X18. The menu has two items, "vertical headers" then "horizontal
    headers". Whatever the grid and the menu's event are when visibility
    is asked, the two are never visible together. Over a header cell
    exactly one is: the vertical one while the headers are not vertical,
    the horizontal one while they are. Anywhere else both are hidden. *)
Theorem header_menu_items_visibility
    (created g : DataGrid) (m : DataGridContextMenu) :
  exists vertical horizontal,
    createHeaderContextMenuItems created = [vertical; horizontal]
    /\ title vertical = "vertical headers"
    /\ title horizontal = "horizontal headers"
    /\ isVisible vertical g m && isVisible horizontal g m = false
    /\ isVisible vertical g m = overHeaderCell g m && negb (selectHeadersVertical g)
    /\ isVisible horizontal g m = overHeaderCell g m && selectHeadersVertical g.
Proof.
  eexists _, _. split; [reflexivity|]. cbn.
  rewrite !visible_overHeaderCell, negb_involutive.
  repeat split.
  destruct (overHeaderCell g m), (selectHeadersVertical g); reflexivity.
Qed.

Lemma string_app_inv_head (s a b : string) :
  (s ++ a = s ++ b)%string -> a = b.
Proof.
  induction s as [|c s IH]; cbn; intros H; [exact H|].
  injection H as H. now apply IH.
Qed.

(** X19. For every wrapper id the two items have different ids, each the
    wrapper id followed by its own suffix, and the same selector: the
    canvas under the wrapper. *)
Theorem header_menu_items_ids (created : DataGrid) :
  NoDup (id <$> createHeaderContextMenuItems created)
  /\ id <$> createHeaderContextMenuItems created
     = [ (wrapperId created ++ "_verticalHeaders")%string;
         (wrapperId created ++ "_horizontalHeaders")%string ]
  /\ Forall (fun item => selector item = ("#" ++ wrapperId created ++ " canvas")%string)
            (createHeaderContextMenuItems created).
Proof.
  split; [|split; [reflexivity|repeat constructor]].
  cbn. apply NoDup_cons. split; [|apply NoDup_singleton].
  intros Hin. apply list_elem_of_singleton in Hin.
  apply string_app_inv_head in Hin. discriminate.
Qed.

End HeaderMenuItems.

(** ** More concrete runs *)

Section MoreRuns.

Import Fake.

Lemma onMouseUp_drops_drag_witness :
  isDragging (grid dragging) = true
  /\ columnPosition (grid (world_of (onMouseUp (host None) (mouse 10 50 0 0 4) dragging)))
     = {| grabbedCellData := None; dropCellData := None |}
  /\ resizing (dataGridResize
                 (grid (world_of (onMouseUp (host None) (mouse 10 50 0 0 4) dragging))))
     = false.
Proof.
  split; [reflexivity|].
  exact (onMouseUp_drops_drag_or_throws (host None) dragging (mouse 10 50 0 0 4) eq_refl).
Defined.

(** The throwing branch of a mouse-up is reachable: a header click where
    the column manager finds no column leaves the drag in progress. *)
Example onMouseUp_missing_column_keeps_drag :
  onMouseUp (host_with (Some (cell 0 1)) false false) (mouse 10 5 0 0 4) dragging
  = Throw "TypeError" dragging
  /\ isDragging (grid dragging) = true.
Proof. split; reflexivity. Qed.


Lemma onMouseDown_primary_button_witness :
  exists w', onMouseDown (host (Some (cell 0 1))) (mouse 10 5 0 1 4) world0 = Normal tt w'
    /\ focused (grid w') = true
    /\ trace w' = trace world0.
Proof.
  destruct (onMouseDown_primary_button (host (Some (cell 0 1))) world0 (mouse 10 5 0 1 4) eq_refl)
    as (w' & Hrun & Hf & Ht & _).
  exists w'. auto.
Defined.

(** A header press on the canvas starts the drag of the cell under the
    pointer; the same press on the corner header's first column does
    not. *)
Example header_press_starts_drag :
  grabbedCellData (columnPosition
    (grid (world_of (onMouseDown (host (Some (cell 0 1))) (mouse 10 5 0 1 4) world0))))
  = Some (cell 0 1)
  /\ grabbedCellData (columnPosition
       (grid (world_of (onMouseDown
          (host (Some {| type := COLUMN_TYPES.index; row := 0; column := 0;
                         region := corner_header; width := 64; delta := 10;
                         value := "" |}))
          (mouse 10 5 0 1 4) world0))))
     = None.
Proof. split; reflexivity. Qed.

Lemma onMouseMove_primary_held_witness :
  exists w', onMouseMove (host (Some (cell 0 2))) (mouse 10 5 0 1 4) dragging = Normal tt w'
    /\ grabbedCellData (columnPosition (grid w')) = Some (cell 0 1).
Proof.
  exact (onMouseMove_primary_held_keeps_drag
           (host (Some (cell 0 2))) dragging (mouse 10 5 0 1 4) eq_refl).
Defined.

Lemma dispose_removes_only_these_listeners_witness :
  exists w', dispose world0 = Normal tt w'
    /\ (("mouseout", handleMouseLeave) ∈ listeners (node (grid w')))
    /\ (("mousemove", handleMouseMove) ∉ listeners (node (grid w'))).
Proof.
  destruct (dispose_removes_only_these_listeners world0 eq_refl)
    as (w' & Hrun & _ & _ & _ & Hnode & _).
  exists w'. split; [exact Hrun|]. split.
  - apply Hnode. split; [|split; discriminate].
    apply list_elem_of_further, list_elem_of_here.
  - intros Hin. apply Hnode in Hin as (_ & Hne & _). now apply Hne.
Defined.

Lemma mouseout_after_disposal_witness :
  exists w1, (dispose ;; fire 0) world0 = Normal tt w1
    /\ cellHoverControl w1 = None
    /\ onMouseLeave (host None) (mouse 400 50 0 0 1) w1 = Throw "TypeError" w1.
Proof.
  destruct (mouseout_after_disposal_throws (host None) world0 eq_refl) as (w1 & Hrun & Hc & _ & _ & Hthrow).
  - intros t Hin. now apply elem_of_nil in Hin.
  - apply list_elem_of_further, list_elem_of_here.
  - exists w1. split; [exact Hrun|]. split; [exact Hc|].
    apply Hthrow; reflexivity.
Defined.

Lemma onMouseDoubleClick_ignored_witness :
  onMouseDoubleClick (host (Some (cell 9 1))) (mouse 10 5 0 0 4) world0
  = Normal tt world0.
Proof.
  apply (onMouseDoubleClick_ignored (host (Some (cell 9 1))) world0 (mouse 10 5 0 0 4)).
  left. reflexivity.
Defined.

Lemma onMouseDoubleClick_tag_only_witness :
  exists w', onMouseDoubleClick (host (Some (cell 2 1))) (mouse 10 50 0 0 4) tag_only
             = Normal tt w'
    /\ grid w' = grid tag_only
    /\ trace w' = [commSignal_emit (ActionDetailsMessage "DOUBLE_CLICK" 3 1)].
Proof.
  exact (onMouseDoubleClick_messages_follow_flags
           (host (Some (cell 2 1))) tag_only (mouse 10 50 0 0 4) (cell 2 1) {| index := 3 |}
           eq_refl eq_refl ltac:(discriminate) eq_refl).
Defined.

Lemma non_digit_key_keeps_precision_witness :
  exists w', onKeyDown (host None) {| keyCode := 72; shiftKey := false |} focusing = Normal tt w'
    /\ columns (grid w') = columns (grid focusing).
Proof.
  apply (non_digit_key_keeps_precision (host None) focusing {| keyCode := 72; shiftKey := false |}).
  right. cbn. lia.
Defined.

Lemma page_up_without_focus_witness :
  exists w', onKeyDown (host None) {| keyCode := 33; shiftKey := false |} world0 = Normal tt w'
    /\ pageScrolls (trace w') = ["up"].
Proof.
  apply (page_keys_scroll_only_without_focus
           (host None) world0 {| keyCode := 33; shiftKey := false |}).
  cbn. lia.
Defined.

Lemma key_h_toggles_heatmap_witness :
  exists w', onKeyDown (host None) {| keyCode := 72; shiftKey := false |} focusing = Normal tt w'
    /\ columnToggles (trace w') = [toggleHighlighter 1%nat HIGHLIGHTER_TYPE.heatmap].
Proof.
  apply (highlighter_keys_toggle_focused_column_only
           (host None) focusing {| keyCode := 72; shiftKey := false |}).
  cbn. lia.
Defined.

Lemma shift_arrow_without_focus_witness :
  endCellData (cellSelectionManager (grid selected)) = Some (cell 2 2)
  /\ exists w', onKeyDown (host None) {| keyCode := 40; shiftKey := true |} selected = Normal tt w'
       /\ endCellData (cellSelectionManager (grid w')) = None
       /\ startCellData (cellSelectionManager (grid w')) = Some (cell 0 0)
       /\ focusedCellData (cellFocusManager (grid w')) = None.
Proof.
  split; [reflexivity|].
  apply (shift_navigation_without_focus_clears_end
           (host None) selected {| keyCode := 40; shiftKey := true |}); try reflexivity.
  - do 2 apply list_elem_of_further. apply list_elem_of_here.
  - cbn. lia.
Defined.

Lemma resize_gesture_witness :
  exists w',
    (onMouseDown (host_with (Some (cell 1 1)) true true) (mouse 64 50 0 1 4) ;;
     onMouseMove (host_with (Some (cell 1 1)) true true) (mouse 80 50 0 1 4) ;;
     onMouseUp (host_with (Some (cell 1 1)) true true) (mouse 80 50 0 0 4)) dragging
    = Normal tt w'
    /\ resizing (dataGridResize (grid w')) = false
    /\ cursor (dataGridResize (grid w')) = "auto"
    /\ focused (grid w') = true
    /\ trace w' = []
    /\ columnPosition (grid w') = columnPosition (grid dragging)
    /\ cellSelectionManager (grid w') = cellSelectionManager (grid dragging).
Proof.
  exact (resize_gesture_touches_nothing_else
           (host_with (Some (cell 1 1)) true true) dragging
           (mouse 64 50 0 1 4) (mouse 80 50 0 1 4) (mouse 80 50 0 0 4)
           eq_refl eq_refl eq_refl eq_refl).
Defined.

(** Over the header the "vertical headers" item alone is visible while the
    headers are horizontal; over the body neither is. *)
Example header_menu_over_header_and_body :
  map (fun item => HeaderMenu.isVisible item menu_grid {| HeaderMenu.event := mouse 10 5 2 0 4 |})
      (HeaderMenu.createHeaderContextMenuItems menu_grid) = [true; false]
  /\ map (fun item => HeaderMenu.isVisible item menu_grid {| HeaderMenu.event := mouse 10 50 2 0 4 |})
         (HeaderMenu.createHeaderContextMenuItems menu_grid) = [false; false].
Proof. split; reflexivity. Qed.

End MoreRuns.

(** ** Construction and disposal, round trip *)

Section RoundTrip.





End RoundTrip.
